(** * POO_Banco: the account rules, in Rocq

    A shallow embedding of the monetary core of the repository: the
    refactored layered version ([src/models], [src/services],
    [src/utils/validators.py]) and the legacy monolith ([banco2.py]).

    Modelling conventions.
    - Python objects are mutated in place and passed by reference, so the
      accounts live in a store indexed by object references and every
      method and service is a computation in a state-and-exception monad.
      The store that an exception leaves behind is part of the result:
      what was written before a [raise] stays written.
    - A [float] is an IEEE 754 binary64 number, with its signed zeros,
      infinities and NaN: [+], [-], [*] and [/] round to nearest, ties to
      even, and every comparison with NaN is false.  A decimal literal of
      the source is the binary64 number nearest to it.  The type of the
      model has more values than binary64 has (mantissas that are not
      normalised); what is proved of every value of the type holds of the
      binary64 numbers in particular.  The real number a finite float
      stands for is [exato]; it is used only to compare what the code
      computes with real arithmetic.
    - A [str] is a sequence of Unicode code points.  [str.strip],
      [str.isdigit], the class [\D] of [re] and [int] follow the character
      tables of Unicode 14.0.0, those of CPython 3.11.  String literals of
      the source are written through [utf8].
    - [Transacao.data] is the class-level default computed once at import
      time; no rule reads it and it is left out of the record. *)

From Stdlib Require Import ZArith NArith QArith Lia List String Ascii Bool.
From Stdlib Require Import Floats.SpecFloat.
Import ListNotations.
Open Scope string_scope.

Set Implicit Arguments.

(** ** Floating point: binary64 *)

Definition float : Type := spec_float.

Definition prec : Z := 53.
Definition emax : Z := 1024.

Definition fadd (x y : float) : float := SFadd prec emax x y.
Definition fsub (x y : float) : float := SFsub prec emax x y.
Definition fmul (x y : float) : float := SFmul prec emax x y.
Definition fdiv (x y : float) : float := SFdiv prec emax x y.

(** [x <= y] and [x < y]; [y > x] is [x < y]. *)
Definition fle (x y : float) : bool := SFleb x y.
Definition flt (x y : float) : bool := SFltb x y.

Declare Scope f64_scope.
Delimit Scope f64_scope with f64.
Bind Scope f64_scope with float.
Infix "+" := fadd : f64_scope.
Infix "-" := fsub : f64_scope.
Infix "*" := fmul : f64_scope.
Infix "/" := fdiv : f64_scope.
Infix "<=?" := fle : f64_scope.
Infix "<?" := flt : f64_scope.

(** [0.0]; an [int] compared with a [float] is compared by value, so the
    [0] of [valor <= 0] is this number as well. *)
Definition zero : float := S754_zero false.

(** [float('nan')] *)
Definition nan : float := S754_nan.

(** [float(z)] for an integer [z] within the range of binary64: the
    nearest binary64 number, [z] itself when [|z| <= 2^53]. *)
Definition inteiro (z : Z) : float := binary_normalize prec emax z 0 false.

(** The decimal literal that denotes the fraction [n/d], for integers [n]
    and [d] that are binary64 numbers themselves: the division rounds
    their quotient once, to the binary64 number nearest to [n/d], which is
    what the literal denotes.  [decimal 7 100] is [0.07]. *)
Definition decimal (n d : Z) : float := (inteiro n / inteiro d)%f64.

(** [5e-324], the smallest positive number, and [2.0 ** 53] *)
Definition menor_positivo : float := S754_finite false 1 (-1074).
Definition dois_53 : float := inteiro (2 ^ 53).

(** [math.isnan], [math.isfinite] *)
Definition e_nan (x : float) : bool :=
  match x with S754_nan => true | _ => false end.

Definition finito (x : float) : bool :=
  match x with
  | S754_zero _ | S754_finite _ _ _ => true
  | S754_infinity _ | S754_nan => false
  end.

(** [x == 0], which holds of [0.0] and of [-0.0] *)
Definition e_zero (x : float) : bool :=
  match x with S754_zero _ => true | _ => false end.

(** The real number a finite float stands for. *)
Definition exato (x : float) : Q :=
  match x with
  | S754_finite s m e => (inject_Z (cond_Zopp s (Zpos m)) * (2 # 1) ^ e)%Q
  | _ => 0%Q
  end.

(** ** Strings: sequences of code points *)

Definition str : Type := list N.
Bind Scope list_scope with str.

(** The code points of a literal, which this file holds in UTF-8:
    [resto] bytes of the current character are still to come and [acc]
    holds the bits read so far. *)
Fixpoint decodifica (bytes : list N) (resto : nat) (acc : N) : str :=
  match bytes with
  | [] => []
  | b :: bytes' =>
      match resto with
      | O =>
          if (b <? 128)%N then b :: decodifica bytes' 0 0%N
          else if (b <? 224)%N then decodifica bytes' 1 (b - 192)%N
          else if (b <? 240)%N then decodifica bytes' 2 (b - 224)%N
          else decodifica bytes' 3 (b - 240)%N
      | S O => (acc * 64 + (b - 128))%N :: decodifica bytes' 0 0%N
      | S k => decodifica bytes' k (acc * 64 + (b - 128))%N
      end
  end.

Definition utf8 (s : string) : str :=
  decodifica (map N_of_ascii (list_ascii_of_string s)) 0 0%N.

(** Membership in a table of inclusive ranges of code points. *)
Definition na_tabela (tabela : list (N * N)) (c : N) : bool :=
  existsb (fun r => (fst r <=? c)%N && (c <=? snd r)%N) tabela.

(** [str.isspace] on one character: the characters [str.strip] removes. *)
Definition espacos : list (N * N) :=
  [(9, 13); (28, 32); (133, 133); (160, 160); (5760, 5760); (8192, 8202);
   (8232, 8233); (8239, 8239); (8287, 8287); (12288, 12288)]%N.

Definition isspace (c : N) : bool := na_tabela espacos c.

Fixpoint lstrip (l : str) : str :=
  match l with
  | c :: r => if isspace c then lstrip r else l
  | [] => []
  end.

(** [v.strip()] *)
Definition strip (v : str) : str := rev (lstrip (rev (lstrip v))).

(** A string that does not start with white space. *)
Definition sem_espaco_inicial (l : str) : Prop :=
  match l with [] => True | c :: _ => isspace c = false end.

(** [not v]: a string is falsy when it is empty. *)
Definition vazio (v : str) : bool :=
  match v with [] => true | _ => false end.

(** [a == b] on strings *)
Fixpoint str_eqb (a b : str) : bool :=
  match a, b with
  | [], [] => true
  | x :: a', y :: b' => (x =? y)%N && str_eqb a' b'
  | _, _ => false
  end.

(** ** Exceptions ([src/exceptions/banco_exceptions.py] and the ones of the
    runtime the rules can meet)

    Each domain exception is kept as the constructor call that raised it:
    the arguments are what the error carries. *)

Inductive Excecao : Type :=
| SaldoInsuficienteError (saldo_atual valor_solicitado : float)
| ValorInvalidoError (valor : float)
| LimiteExcedidoError (limite_disponivel valor_solicitado : float)
| CPFInvalidoError (cpf : str)
| IdadeInvalidaError (idade : Z)
(** pydantic's [ValidationError]: the fields whose validators raised
    [ValueError], in field order *)
| ValidationError (campos : list string)
(** a method or attribute the object's class does not have *)
| AttributeError (nome : string).

Inductive Resultado (A : Type) : Type :=
| Retorna (a : A)
| Levanta (e : Excecao).
Arguments Retorna {A} a.
Arguments Levanta {A} e.

(** ** The monad: a store [S] threaded through, exceptions keep the store *)

Definition M (S A : Type) : Type := S -> Resultado A * S.

Definition ret {S A} (a : A) : M S A := fun s => (Retorna a, s).

Definition raise {S A} (e : Excecao) : M S A := fun s => (Levanta e, s).

Definition bind {S A B} (m : M S A) (k : A -> M S B) : M S B :=
  fun s =>
    match m s with
    | (Retorna a, s') => k a s'
    | (Levanta e, s') => (Levanta e, s')
    end.

Definition gets {S A} (f : S -> A) : M S A := fun s => (Retorna (f s), s).

Definition modify {S} (f : S -> S) : M S unit := fun s => (Retorna tt, f s).

Declare Scope monad_scope.
Delimit Scope monad_scope with monad.
Notation "x <- m ;; k" := (bind m (fun x => k))
  (at level 61, m at next level, right associativity) : monad_scope.
Notation "m ;; k" := (bind m (fun _ => k))
  (at level 61, right associativity) : monad_scope.
Open Scope monad_scope.

(** The store after a call, whether it returned or raised. *)
Definition estado_final {S A} (r : Resultado A * S) : S := snd r.

(** The call returned normally. *)
Definition retornou {A} (r : Resultado A) : bool :=
  match r with Retorna _ => true | Levanta _ => false end.

(** ** Model construction as pydantic runs it

    A field validator returns the (possibly rewritten) value, raises
    [ValueError], or raises something else.  pydantic visits the fields in
    declaration order; a [ValueError] is recorded under the field's name and
    the visit goes on; any other exception leaves the constructor at once;
    after the last field the recorded errors, if any, are raised as one
    [ValidationError].  The log also keeps which validators were run.  A
    [float] field takes every float, NaN and the infinities included. *)

Inductive Validacao (A : Type) : Type :=
| Aceita (a : A)
| ValueError
| Propaga (e : Excecao).
Arguments Aceita {A} a.
Arguments ValueError {A}.
Arguments Propaga {A} e.

Record Registro : Type := {
  erros : list string;
  executados : list string
}.

Definition registro_vazio : Registro := {| erros := []; executados := [] |}.

Definition campo {A} (nome : string) (validador : unit -> Validacao A)
  : M Registro (option A) :=
  fun r =>
    let visto := (executados r ++ [nome])%list in
    match validador tt with
    | Aceita a => (Retorna (Some a), {| erros := erros r; executados := visto |})
    | ValueError =>
        (Retorna None,
         {| erros := (erros r ++ [nome])%list; executados := visto |})
    | Propaga e => (Levanta e, {| erros := erros r; executados := visto |})
    end.

(** The end of the visit, when some field was refused. *)
Definition falha_de_validacao {A} : M Registro A :=
  fun r => (Levanta (ValidationError (erros r)), r).

(** A constructor call from inside a computation over a store [S]: the
    construction itself touches no store. *)
Definition construir {S A} (m : M Registro A) : M S A :=
  fun s => (fst (m registro_vazio), s).

(** ** Object references and the refactored data model *)

Definition ref := nat.

(** [src/models/transacao.py] *)
Record Transacao : Type := {
  tipo : str;
  valor : float;
  conta : ref
}.

(** The fields a subclass of [Conta] adds. *)
Inductive Classe : Type :=
| ContaCorrenteT (limite taxa_manutencao : float)
| ContaPoupancaT (taxa_rendimento : float) (data_aniversario : Z).

(** [src/models/conta.py] *)
Record Conta : Type := {
  numero : str;
  cliente : ref;
  saldo : float;
  senha_hash : str;
  transacoes : list Transacao;
  classe : Classe
}.

Definition Heap := ref -> Conta.

Definition com_saldo (c : Conta) (v : float) : Conta :=
  {| numero := numero c; cliente := cliente c; saldo := v;
     senha_hash := senha_hash c; transacoes := transacoes c;
     classe := classe c |}.

Definition com_transacoes (c : Conta) (ts : list Transacao) : Conta :=
  {| numero := numero c; cliente := cliente c; saldo := saldo c;
     senha_hash := senha_hash c; transacoes := ts;
     classe := classe c |}.

Definition atualiza (h : Heap) (r : ref) (c : Conta) : Heap :=
  fun r' => if Nat.eqb r r' then c else h r'.

(** [obj.saldo] *)
Definition ler_saldo (self : ref) : M Heap float :=
  gets (fun h => saldo (h self)).

(** [obj.saldo = v] *)
Definition escrever_saldo (self : ref) (v : float) : M Heap unit :=
  modify (fun h => atualiza h self (com_saldo (h self) v)).

(** [obj.numero] *)
Definition ler_numero (self : ref) : M Heap str :=
  gets (fun h => numero (h self)).

(** [obj.transacoes.append(t)] *)
Definition transacoes_append (self : ref) (t : Transacao) : M Heap unit :=
  modify (fun h =>
    atualiza h self (com_transacoes (h self) (transacoes (h self) ++ [t])%list)).

(** [obj.limite], an attribute of [ContaCorrente] only *)
Definition ler_limite (self : ref) : M Heap float :=
  fun h =>
    match classe (h self) with
    | ContaCorrenteT l _ => (Retorna l, h)
    | ContaPoupancaT _ _ => (Levanta (AttributeError "limite"), h)
    end.

(** [obj.taxa_manutencao], an attribute of [ContaCorrente] only *)
Definition ler_taxa_manutencao (self : ref) : M Heap float :=
  fun h =>
    match classe (h self) with
    | ContaCorrenteT _ t => (Retorna t, h)
    | ContaPoupancaT _ _ => (Levanta (AttributeError "taxa_manutencao"), h)
    end.

(** [obj.taxa_rendimento], an attribute of [ContaPoupanca] only *)
Definition ler_taxa_rendimento (self : ref) : M Heap float :=
  fun h =>
    match classe (h self) with
    | ContaPoupancaT t _ => (Retorna t, h)
    | ContaCorrenteT _ _ => (Levanta (AttributeError "taxa_rendimento"), h)
    end.

(** [Transacao(tipo=..., valor=..., conta=...)] *)
Definition validar_tipo_nao_vazio (v : str) : Validacao str :=
  if vazio (strip v) then ValueError else Aceita (strip v).

Definition validar_valor_positivo (v : float) : Validacao float :=
  if (v <=? zero)%f64 then ValueError else Aceita v.

Definition Transacao_validar (tipo : str) (valor : float) (conta : ref)
  : M Registro Transacao :=
  t <- campo "tipo" (fun _ => validar_tipo_nao_vazio tipo) ;;
  v <- campo "valor" (fun _ => validar_valor_positivo valor) ;;
  match t, v with
  | Some t, Some v => ret {| tipo := t; valor := v; conta := conta |}
  | _, _ => falha_de_validacao
  end.

Definition Transacao_init {S} (tipo : str) (valor : float) (conta : ref)
  : M S Transacao :=
  construir (Transacao_validar tipo valor conta).

(** The validators of the base class [Conta]. *)
Definition validar_saldo_nao_negativo (v : float) : Validacao float :=
  if (v <? zero)%f64 then ValueError else Aceita v.

Definition validar_numero_nao_vazio (v : str) : Validacao str :=
  if vazio (strip v) then ValueError else Aceita (strip v).

(** ** The account classes ([src/models/conta_corrente.py],
    [src/models/conta_poupanca.py]) *)

Module ContaCorrente.

Definition validar_limite_nao_negativo (v : float) : Validacao float :=
  if (v <? zero)%f64 then ValueError else Aceita v.

(** [ContaCorrente(numero=..., cliente=..., saldo=..., senha_hash=...,
    limite=...)]; [taxa_manutencao] is [10.0] unless given, and has no
    validator. *)
Definition init (numero : str) (cliente : ref) (saldo : float)
    (senha_hash : str) (limite : float) (taxa_manutencao : float)
  : M Registro Conta :=
  n <- campo "numero" (fun _ => validar_numero_nao_vazio numero) ;;
  s <- campo "saldo" (fun _ => validar_saldo_nao_negativo saldo) ;;
  l <- campo "limite" (fun _ => validar_limite_nao_negativo limite) ;;
  match n, s, l with
  | Some n, Some s, Some l =>
      ret {| numero := n; cliente := cliente; saldo := s;
             senha_hash := senha_hash; transacoes := [];
             classe := ContaCorrenteT l taxa_manutencao |}
  | _, _, _ => falha_de_validacao
  end.

Definition sacar (self : ref) (valor : float) : M Heap unit :=
  if (valor <=? zero)%f64 then raise (ValorInvalidoError valor)
  else
    s <- ler_saldo self ;;
    l <- ler_limite self ;;
    let limite_total := (s + l)%f64 in
    if (limite_total <? valor)%f64
    then raise (LimiteExcedidoError limite_total valor)
    else
      s <- ler_saldo self ;;
      escrever_saldo self (s - valor)%f64.

Definition aplicar_taxas (self : ref) : M Heap unit :=
  s <- ler_saldo self ;;
  t <- ler_taxa_manutencao self ;;
  escrever_saldo self (s - t)%f64.

Definition get_valor_imposto (self : ref) : M Heap float :=
  s <- ler_saldo self ;;
  ret (s * decimal 7 100)%f64.

End ContaCorrente.

Module ContaPoupanca.

Definition validar_taxa_positiva (v : float) : Validacao float :=
  if (v <=? zero)%f64 then ValueError else Aceita v.

Definition validar_dia_mes (v : Z) : Validacao Z :=
  if negb ((1 <=? v)%Z && (v <=? 31)%Z) then ValueError else Aceita v.

Definition init (numero : str) (cliente : ref) (saldo : float)
    (senha_hash : str) (taxa_rendimento : float) (data_aniversario : Z)
  : M Registro Conta :=
  n <- campo "numero" (fun _ => validar_numero_nao_vazio numero) ;;
  s <- campo "saldo" (fun _ => validar_saldo_nao_negativo saldo) ;;
  t <- campo "taxa_rendimento"
         (fun _ => validar_taxa_positiva taxa_rendimento) ;;
  d <- campo "data_aniversario"
         (fun _ => validar_dia_mes data_aniversario) ;;
  match n, s, t, d with
  | Some n, Some s, Some t, Some d =>
      ret {| numero := n; cliente := cliente; saldo := s;
             senha_hash := senha_hash; transacoes := [];
             classe := ContaPoupancaT t d |}
  | _, _, _, _ => falha_de_validacao
  end.

Definition sacar (self : ref) (valor : float) : M Heap unit :=
  if (valor <=? zero)%f64 then raise (ValorInvalidoError valor)
  else
    s <- ler_saldo self ;;
    if (s <? valor)%f64
    then raise (SaldoInsuficienteError s valor)
    else
      s <- ler_saldo self ;;
      escrever_saldo self (s - valor)%f64.

Definition aplicar_taxas (self : ref) : M Heap unit := ret tt.

Definition get_rendimento (self : ref) : M Heap float :=
  s <- ler_saldo self ;;
  t <- ler_taxa_rendimento self ;;
  ret (s * (t / inteiro 100))%f64.

End ContaPoupanca.

(** Method lookup on the class of the object. *)

Definition sacar (self : ref) (valor : float) : M Heap unit :=
  fun h =>
    match classe (h self) with
    | ContaCorrenteT _ _ => ContaCorrente.sacar self valor h
    | ContaPoupancaT _ _ => ContaPoupanca.sacar self valor h
    end.

Definition aplicar_taxas (self : ref) : M Heap unit :=
  fun h =>
    match classe (h self) with
    | ContaCorrenteT _ _ => ContaCorrente.aplicar_taxas self h
    | ContaPoupancaT _ _ => ContaPoupanca.aplicar_taxas self h
    end.

Definition get_valor_imposto (self : ref) : M Heap float :=
  fun h =>
    match classe (h self) with
    | ContaCorrenteT _ _ => ContaCorrente.get_valor_imposto self h
    | ContaPoupancaT _ _ => (Levanta (AttributeError "get_valor_imposto"), h)
    end.

Definition get_rendimento (self : ref) : M Heap float :=
  fun h =>
    match classe (h self) with
    | ContaPoupancaT _ _ => ContaPoupanca.get_rendimento self h
    | ContaCorrenteT _ _ => (Levanta (AttributeError "get_rendimento"), h)
    end.

(** [hasattr(conta, 'get_valor_imposto')], [hasattr(conta, 'get_rendimento')] *)
Definition hasattr_get_valor_imposto (self : ref) : M Heap bool :=
  gets (fun h => match classe (h self) with
                 | ContaCorrenteT _ _ => true | ContaPoupancaT _ _ => false
                 end).

Definition hasattr_get_rendimento (self : ref) : M Heap bool :=
  gets (fun h => match classe (h self) with
                 | ContaPoupancaT _ _ => true | ContaCorrenteT _ _ => false
                 end).

(** ** The services ([src/services/conta_service.py])

    The calls to the logger and to [console_view] only print; they are left
    out. *)

Module conta_service.

Definition realizar_deposito (conta : ref) (valor : float) : M Heap unit :=
  if (valor <=? zero)%f64 then raise (ValorInvalidoError valor)
  else
    s <- ler_saldo conta ;;
    escrever_saldo conta (s + valor)%f64 ;;
    transacao <- Transacao_init (utf8 "Depósito") valor conta ;;
    transacoes_append conta transacao.

Definition realizar_saque (conta : ref) (valor : float) : M Heap unit :=
  sacar conta valor ;;
  transacao <- Transacao_init (utf8 "Saque") valor conta ;;
  transacoes_append conta transacao.

Definition transferir (conta_origem conta_destino : ref) (valor : float)
  : M Heap unit :=
  sacar conta_origem valor ;;
  n_destino <- ler_numero conta_destino ;;
  transacao_saida <-
    Transacao_init (utf8 "Transf. para " ++ n_destino)%list valor
      conta_origem ;;
  transacoes_append conta_origem transacao_saida ;;
  s <- ler_saldo conta_destino ;;
  escrever_saldo conta_destino (s + valor)%f64 ;;
  n_origem <- ler_numero conta_origem ;;
  transacao_entrada <-
    Transacao_init (utf8 "Transf. de " ++ n_origem)%list valor
      conta_destino ;;
  transacoes_append conta_destino transacao_entrada.

Definition aplicar_taxas (conta : ref) : M Heap unit :=
  saldo_anterior <- ler_saldo conta ;;
  aplicar_taxas conta ;;
  s <- ler_saldo conta ;;
  if (s <? saldo_anterior)%f64 then
    s <- ler_saldo conta ;;
    let taxa_cobrada := (saldo_anterior - s)%f64 in
    transacao <- Transacao_init (utf8 "Taxa manutenção") taxa_cobrada conta ;;
    transacoes_append conta transacao
  else ret tt.

Definition calcular_imposto (conta : ref) : M Heap float :=
  b <- hasattr_get_valor_imposto conta ;;
  if b then
    imposto <- get_valor_imposto conta ;;
    ret imposto
  else ret zero.

Definition calcular_rendimento (conta : ref) : M Heap float :=
  b <- hasattr_get_rendimento conta ;;
  if b then
    rendimento <- get_rendimento conta ;;
    ret rendimento
  else ret zero.

Definition aplicar_rendimento (conta : ref) : M Heap unit :=
  b <- hasattr_get_rendimento conta ;;
  if b then
    rendimento <- get_rendimento conta ;;
    s <- ler_saldo conta ;;
    escrever_saldo conta (s + rendimento)%f64 ;;
    transacao <- Transacao_init (utf8 "Rendimento") rendimento conta ;;
    transacoes_append conta transacao
  else ret tt.

End conta_service.

(** ** Sequences of calls *)

(** [for v in valores: f(v)], stopping at the first exception. *)
Fixpoint para_cada {S A} (f : A -> M S unit) (valores : list A) : M S unit :=
  match valores with
  | [] => ret tt
  | v :: resto => f v ;; para_cada f resto
  end.

(** [n] calls of [m] in a row, with the values they returned. *)
Fixpoint repetir {S A} (n : nat) (m : M S A) : M S (list A) :=
  match n with
  | O => ret []
  | S k => a <- m ;; r <- repetir k m ;; ret (a :: r)
  end.

(** The operations of a caller on one account; a caller that catches the
    exception of one call goes on with the store that call left. *)
Inductive Operacao : Type :=
| Depositar (valor : float)
| Sacar (valor : float)
| AplicarTaxas.

Definition executar (conta : ref) (op : Operacao) : M Heap unit :=
  match op with
  | Depositar v => conta_service.realizar_deposito conta v
  | Sacar v => conta_service.realizar_saque conta v
  | AplicarTaxas => conta_service.aplicar_taxas conta
  end.

Definition apos (conta : ref) (ops : list Operacao) (h : Heap) : Heap :=
  fold_left (fun h op => estado_final (executar conta op h)) ops h.

(** What one operation does to the balance of a checking account with
    limit [L] and fee [taxa], as the three methods compute it. *)
Definition passo (L taxa : float) (b : float) (op : Operacao) : float :=
  match op with
  | Depositar v => if (v <=? zero)%f64 then b else (b + v)%f64
  | Sacar v =>
      if (v <=? zero)%f64 then b
      else if (b + L <? v)%f64 then b
      else (b - v)%f64
  | AplicarTaxas => (b - taxa)%f64
  end.

(** ** The identifier validators ([src/utils/validators.py]) *)

Module validators.

(** The decimal digits of Unicode come in runs of ten consecutive code
    points, from the zero to the nine of a script; these are the zeros. *)
Definition zeros_decimais : list N :=
  [48; 1632; 1776; 1984; 2406; 2534; 2662; 2790; 2918; 3046; 3174; 3302;
   3430; 3558; 3664; 3792; 3872; 4160; 4240; 6112; 6160; 6470; 6608; 6784;
   6800; 6992; 7088; 7232; 7248; 42528; 43216; 43264; 43472; 43504; 43600;
   44016; 65296; 66720; 68912; 69734; 69872; 69942; 70096; 70384; 70736;
   70864; 71248; 71360; 71472; 71904; 72016; 72784; 73040; 73120; 92768;
   92864; 93008; 120782; 120792; 120802; 120812; 120822; 123200; 123632;
   125264; 130032]%N.

(** The zero of the run a decimal digit belongs to. *)
Definition zero_de (c : N) : option N :=
  find (fun z => (z <=? c)%N && (c <? z + 10)%N) zeros_decimais.

(** What [\d] matches: a decimal digit of any script. *)
Definition isdecimal (c : N) : bool :=
  match zero_de c with Some _ => true | None => false end.

(** [re.sub(r'\D', '', s)] *)
Definition re_sub_nao_digitos (s : str) : str := filter isdecimal s.

(** [s[i]], for an index in range *)
Definition item (s : str) (i : nat) : N := nth i s 0%N.

(** [c * n] *)
Definition vezes (c : N) (n : nat) : str := repeat c n.

(** [int(c)] for a decimal digit of any script: its value *)
Definition int (c : N) : Z :=
  match zero_de c with
  | Some z => Z.of_N (c - z)
  | None => 0%Z
  end.

(** [sum(f(i) for i in range(n))] *)
Definition sum_range (n : nat) (f : nat -> Z) : Z :=
  fold_left Z.add (map f (seq 0 n)) 0%Z.

Definition validar_cpf (cpf : str) : bool :=
  let cpf_limpo := re_sub_nao_digitos cpf in
  if negb (List.length cpf_limpo =? 11)%nat then false
  else if str_eqb cpf_limpo (vezes (item cpf_limpo 0) 11) then false
  else
    let soma :=
      sum_range 9 (fun i => int (item cpf_limpo i) * (10 - Z.of_nat i))%Z in
    let resto := (soma mod 11)%Z in
    let digito1 := if (resto <? 2)%Z then 0%Z else (11 - resto)%Z in
    if negb (int (item cpf_limpo 9) =? digito1)%Z then false
    else
      let soma :=
        sum_range 10
          (fun i => int (item cpf_limpo i) * (11 - Z.of_nat i))%Z in
      let resto := (soma mod 11)%Z in
      let digito2 := if (resto <? 2)%Z then 0%Z else (11 - resto)%Z in
      (int (item cpf_limpo 10) =? digito2)%Z.

(** [pesos[i]], for an index in range *)
Definition peso (pesos : list Z) (i : nat) : Z := nth i pesos 0%Z.

Definition validar_cnpj (cnpj : str) : bool :=
  let cnpj_limpo := re_sub_nao_digitos cnpj in
  if negb (List.length cnpj_limpo =? 14)%nat then false
  else if str_eqb cnpj_limpo (vezes (item cnpj_limpo 0) 14) then false
  else
    let pesos1 := [5; 4; 3; 2; 9; 8; 7; 6; 5; 4; 3; 2]%Z in
    let soma :=
      sum_range 12 (fun i => int (item cnpj_limpo i) * peso pesos1 i)%Z in
    let resto := (soma mod 11)%Z in
    let digito1 := if (resto <? 2)%Z then 0%Z else (11 - resto)%Z in
    if negb (int (item cnpj_limpo 12) =? digito1)%Z then false
    else
      let pesos2 := [6; 5; 4; 3; 2; 9; 8; 7; 6; 5; 4; 3; 2]%Z in
      let soma :=
        sum_range 13 (fun i => int (item cnpj_limpo i) * peso pesos2 i)%Z in
      let resto := (soma mod 11)%Z in
      let digito2 := if (resto <? 2)%Z then 0%Z else (11 - resto)%Z in
      (int (item cnpj_limpo 13) =? digito2)%Z.

Definition validar_cep (cep : str) : bool :=
  let cep_limpo := re_sub_nao_digitos cep in
  (List.length cep_limpo =? 8)%nat.

Definition validar_telefone (telefone : str) : bool :=
  let tel_limpo := re_sub_nao_digitos telefone in
  ((List.length tel_limpo =? 10) || (List.length tel_limpo =? 11))%nat.

(** The digits of an input, by value, in the order they are written. *)
Definition digitos (cpf : str) : list Z :=
  map int (re_sub_nao_digitos cpf).

Definition pesos_10_a_2 : list Z := [10; 9; 8; 7; 6; 5; 4; 3; 2]%Z.
Definition pesos_11_a_2 : list Z := [11; 10; 9; 8; 7; 6; 5; 4; 3; 2]%Z.
Definition pesos_cnpj_1 : list Z := [5; 4; 3; 2; 9; 8; 7; 6; 5; 4; 3; 2]%Z.
Definition pesos_cnpj_2 : list Z := [6; 5; 4; 3; 2; 9; 8; 7; 6; 5; 4; 3; 2]%Z.

Fixpoint soma_ponderada (ds pesos : list Z) : Z :=
  match ds, pesos with
  | d :: ds', p :: pesos' => (d * p + soma_ponderada ds' pesos')%Z
  | _, _ => 0%Z
  end.

(** The check digit of the digits [ds] under the weights [pesos]: the
    weighted sum modulo 11, a remainder below 2 giving 0 and any other
    remainder 11 minus itself. *)
Definition digito_verificador (ds pesos : list Z) : Z :=
  let resto := (soma_ponderada ds pesos mod 11)%Z in
  if (resto <? 2)%Z then 0%Z else (11 - resto)%Z.

(** All the digits have the same value. *)
Definition todos_iguais (ds : list Z) : bool :=
  match ds with
  | [] => true
  | d :: _ => forallb (Z.eqb d) ds
  end.

(** All the characters are the first one again: what the comparison with
    [cpf_limpo[0] * 11] tests. *)
Definition mesmo_caractere (cs : str) : bool :=
  match cs with
  | [] => true
  | c :: _ => forallb (N.eqb c) cs
  end.

(** The two validators, each as one conjunction over the characters that
    [\D] leaves. *)
Definition validar_cpf_conjuncao (cpf : str) : bool :=
  let cs := re_sub_nao_digitos cpf in
  let ds := digitos cpf in
  (List.length cs =? 11)%nat
  && negb (mesmo_caractere cs)
  && (digito_verificador ds pesos_10_a_2 =? nth 9 ds 0)%Z
  && (digito_verificador ds pesos_11_a_2 =? nth 10 ds 0)%Z.

Definition validar_cnpj_conjuncao (cnpj : str) : bool :=
  let cs := re_sub_nao_digitos cnpj in
  let ds := digitos cnpj in
  (List.length cs =? 14)%nat
  && negb (mesmo_caractere cs)
  && (digito_verificador ds pesos_cnpj_1 =? nth 12 ds 0)%Z
  && (digito_verificador ds pesos_cnpj_2 =? nth 13 ds 0)%Z.

End validators.


(** ** Persons and customers ([src/models/pessoa.py],
    [src/models/cliente.py]) *)

Record date : Type := { year : Z; month : Z; day : Z }.

Record Cliente : Type := {
  nome : str;
  cpf : str;
  data_nascimento : date;
  cnh : str;
  contas : list ref
}.

Module Pessoa.

Definition validar_nome_nao_vazio (v : str) : Validacao str :=
  if vazio (strip v) then ValueError else Aceita (strip v).

Definition validar_cpf_format (v : str) : Validacao str :=
  if negb (validators.validar_cpf v) then Propaga (CPFInvalidoError v)
  else Aceita v.

(** [(a1, a2) < (b1, b2)] on tuples of integers *)
Definition tupla_lt (a b : Z * Z) : bool :=
  ((fst a <? fst b) || ((fst a =? fst b) && (snd a <? snd b)))%Z.

(** The age the validator computes; [hoje] is [datetime.now().date()]. *)
Definition idade (hoje v : date) : Z :=
  (year hoje - year v
   - (if tupla_lt (month hoje, day hoje) (month v, day v) then 1 else 0))%Z.

Definition validar_idade_minima (hoje v : date) : Validacao date :=
  if (idade hoje v <? 18)%Z then Propaga (IdadeInvalidaError (idade hoje v))
  else Aceita v.

End Pessoa.

Module ClienteM.

(** [v.replace(c, '')] for a one-character [c] *)
Definition replace_vazio (c : N) (v : str) : str :=
  filter (fun a => negb (a =? c)%N) v.

(** [str.isdigit] on one character: the decimal digits and the other
    characters that stand for a digit (superscripts, circled digits, ...). *)
Definition digitos_unicode : list (N * N) :=
  [(48, 57); (178, 179); (185, 185); (1632, 1641); (1776, 1785);
   (1984, 1993); (2406, 2415); (2534, 2543); (2662, 2671); (2790, 2799);
   (2918, 2927); (3046, 3055); (3174, 3183); (3302, 3311); (3430, 3439);
   (3558, 3567); (3664, 3673); (3792, 3801); (3872, 3881); (4160, 4169);
   (4240, 4249); (4969, 4977); (6112, 6121); (6160, 6169); (6470, 6479);
   (6608, 6618); (6784, 6793); (6800, 6809); (6992, 7001); (7088, 7097);
   (7232, 7241); (7248, 7257); (8304, 8304); (8308, 8313); (8320, 8329);
   (9312, 9320); (9332, 9340); (9352, 9360); (9450, 9450); (9461, 9469);
   (9471, 9471); (10102, 10110); (10112, 10120); (10122, 10130);
   (42528, 42537); (43216, 43225); (43264, 43273); (43472, 43481);
   (43504, 43513); (43600, 43609); (44016, 44025); (65296, 65305);
   (66720, 66729); (68160, 68163); (68912, 68921); (69216, 69224);
   (69714, 69722); (69734, 69743); (69872, 69881); (69942, 69951);
   (70096, 70105); (70384, 70393); (70736, 70745); (70864, 70873);
   (71248, 71257); (71360, 71369); (71472, 71481); (71904, 71913);
   (72016, 72025); (72784, 72793); (73040, 73049); (73120, 73129);
   (92768, 92777); (92864, 92873); (93008, 93017); (120782, 120831);
   (123200, 123209); (123632, 123641); (125264, 125273); (127232, 127242);
   (130032, 130041)]%N.

Definition isdigit (c : N) : bool := na_tabela digitos_unicode c.

(** [v.isdigit()]: not empty, and every character a digit *)
Definition str_isdigit (v : str) : bool := negb (vazio v) && forallb isdigit v.

Definition validar_cnh_formato (v : str) : Validacao str :=
  let cnh_limpo := replace_vazio 45 (replace_vazio 32 v) in
  if negb (str_isdigit cnh_limpo) || (List.length cnh_limpo <? 9)%nat
  then ValueError else Aceita v.

(** [Cliente(nome=..., cpf=..., data_nascimento=..., cnh=...)]: the fields of
    [Pessoa] first, then those of [Cliente]. *)
Definition init (hoje : date) (nome cpf : str) (data_nascimento : date)
    (cnh : str) : M Registro Cliente :=
  n <- campo "nome" (fun _ => Pessoa.validar_nome_nao_vazio nome) ;;
  c <- campo "cpf" (fun _ => Pessoa.validar_cpf_format cpf) ;;
  d <- campo "data_nascimento"
         (fun _ => Pessoa.validar_idade_minima hoje data_nascimento) ;;
  h <- campo "cnh" (fun _ => validar_cnh_formato cnh) ;;
  match n, c, d, h with
  | Some n, Some c, Some d, Some h =>
      ret {| nome := n; cpf := c; data_nascimento := d; cnh := h;
             contas := [] |}
  | _, _, _, _ => falha_de_validacao
  end.

End ClienteM.

(** ** The legacy monolith ([banco2.py])

    [Notificacao] prints to the console; the lines printed are kept as the
    output of the run.  The file also declares an [Exceptions] class with
    validation helpers that raise; no method of the accounts calls them, so
    they take no part in what [depositar] and [sacar] do. *)

Module Legado.

Inductive Notificacao : Type :=
| deposito (valor : float)
| saque (valor : float)
| erro_valor_invalido
| erro_saldo_insuficiente
| erro_limite_excedido.

Record Transacao : Type := {
  _tipo : str;
  _valor : float;
  _conta : ref
}.

Inductive Classe : Type :=
| Conta_CorrenteT (_limite _taxa_manutencao : float)
| Conta_PoupancaT (_taxa_rendimento : float) (_data_aniversario : Z).

Record Conta : Type := {
  _numero : str;
  _cliente : ref;
  _saldo : float;
  _senha : str;
  _transacoes : list Transacao;
  classe : Classe
}.

Record Mundo : Type := {
  objetos : ref -> Conta;
  saida : list Notificacao
}.

Definition notificar (n : Notificacao) : M Mundo unit :=
  modify (fun w => {| objetos := objetos w; saida := (saida w ++ [n])%list |}).

Definition ler_saldo (self : ref) : M Mundo float :=
  gets (fun w => _saldo (objetos w self)).

Definition escrever_saldo (self : ref) (v : float) : M Mundo unit :=
  modify (fun w =>
    let c := objetos w self in
    {| objetos := fun r =>
         if Nat.eqb self r then
           {| _numero := _numero c; _cliente := _cliente c; _saldo := v;
              _senha := _senha c; _transacoes := _transacoes c;
              classe := classe c |}
         else objetos w r;
       saida := saida w |}).

Definition transacoes_append (self : ref) (t : Transacao) : M Mundo unit :=
  modify (fun w =>
    let c := objetos w self in
    {| objetos := fun r =>
         if Nat.eqb self r then
           {| _numero := _numero c; _cliente := _cliente c;
              _saldo := _saldo c; _senha := _senha c;
              _transacoes := (_transacoes c ++ [t])%list;
              classe := classe c |}
         else objetos w r;
       saida := saida w |}).

Definition ler_limite (self : ref) : M Mundo float :=
  fun w =>
    match classe (objetos w self) with
    | Conta_CorrenteT l _ => (Retorna l, w)
    | Conta_PoupancaT _ _ => (Levanta (AttributeError "_limite"), w)
    end.

(** [Conta.depositar] *)
Definition depositar (self : ref) (valor : float) : M Mundo unit :=
  if (valor <=? zero)%f64 then notificar erro_valor_invalido
  else
    s <- ler_saldo self ;;
    escrever_saldo self (s + valor)%f64 ;;
    transacoes_append self
      {| _tipo := utf8 "Depósito"; _valor := valor; _conta := self |} ;;
    notificar (deposito valor).

(** [Conta_Corrente.sacar] *)
Definition Conta_Corrente_sacar (self : ref) (valor : float) : M Mundo unit :=
  if (valor <=? zero)%f64 then notificar erro_valor_invalido
  else
    s <- ler_saldo self ;;
    l <- ler_limite self ;;
    if (s + l <? valor)%f64 then notificar erro_limite_excedido
    else
      s <- ler_saldo self ;;
      escrever_saldo self (s - valor)%f64 ;;
      transacoes_append self
        {| _tipo := utf8 "Saque"; _valor := valor; _conta := self |} ;;
      notificar (saque valor).

(** [Conta_Poupanca.sacar] *)
Definition Conta_Poupanca_sacar (self : ref) (valor : float) : M Mundo unit :=
  if (valor <=? zero)%f64 then notificar erro_valor_invalido
  else
    s <- ler_saldo self ;;
    if (s <? valor)%f64 then notificar erro_saldo_insuficiente
    else
      s <- ler_saldo self ;;
      escrever_saldo self (s - valor)%f64 ;;
      transacoes_append self
        {| _tipo := utf8 "Saque"; _valor := valor; _conta := self |} ;;
      notificar (saque valor).

Definition sacar (self : ref) (valor : float) : M Mundo unit :=
  fun w =>
    match classe (objetos w self) with
    | Conta_CorrenteT _ _ => Conta_Corrente_sacar self valor w
    | Conta_PoupancaT _ _ => Conta_Poupanca_sacar self valor w
    end.

End Legado.


(** ** What a call leaves as it is *)

(** The fields of an account that no operation on balances writes. *)
Definition mesma_identidade (c c' : Conta) : Prop :=
  numero c' = numero c /\ cliente c' = cliente c /\
  senha_hash c' = senha_hash c /\ classe c' = classe c.

(** ** Example stores

    A checking account with the default fee and a savings account with the
    rate 0.5; reference 0 is the checking account, reference 1 and every
    other one the savings account.  [heap_padrao] holds the two accounts of
    the test fixtures (checking: balance 1000, limit 500; savings: balance
    5000, anniversary day 15). *)

Definition corrente_de (s l t : float) : Conta :=
  {| numero := utf8 "12345-6"; cliente := 7%nat; saldo := s;
     senha_hash := utf8 "$2b$"; transacoes := [];
     classe := ContaCorrenteT l t |}.

Definition poupanca_de (s t : float) : Conta :=
  {| numero := utf8 "98765-4"; cliente := 7%nat; saldo := s;
     senha_hash := utf8 "$2b$"; transacoes := [];
     classe := ContaPoupancaT t 15 |}.

Definition heap_de (c p : Conta) : Heap :=
  fun r => match r with O => c | _ => p end.

Definition conta_corrente_padrao : Conta :=
  corrente_de (inteiro 1000) (inteiro 500) (inteiro 10).

Definition conta_poupanca_padrao : Conta :=
  poupanca_de (inteiro 5000) (decimal 1 2).

Definition heap_padrao : Heap :=
  heap_de conta_corrente_padrao conta_poupanca_padrao.

(** ** Calls of the services, on any accounts

    What a caller of [conta_service] can do; as before, a caller that
    catches an exception goes on with the store the call left. *)

Inductive Chamada : Type :=
| ChamaDeposito (conta : ref) (valor : float)
| ChamaSaque (conta : ref) (valor : float)
| ChamaTransferir (conta_origem conta_destino : ref) (valor : float)
| ChamaTaxas (conta : ref)
| ChamaRendimento (conta : ref).

Definition chamar (c : Chamada) : M Heap unit :=
  match c with
  | ChamaDeposito conta v => conta_service.realizar_deposito conta v
  | ChamaSaque conta v => conta_service.realizar_saque conta v
  | ChamaTransferir o d v => conta_service.transferir o d v
  | ChamaTaxas conta => conta_service.aplicar_taxas conta
  | ChamaRendimento conta => conta_service.aplicar_rendimento conta
  end.

Definition apos_chamadas (cs : list Chamada) (h : Heap) : Heap :=
  fold_left (fun h c => estado_final (chamar c h)) cs h.

(** Every transaction of a log has an amount that the validator of
    [Transacao] lets through: [valor <= 0] is false of it. *)
Definition valores_aceites (ts : list Transacao) : Prop :=
  Forall (fun t => (valor t <=? zero)%f64 = false) ts.

(** What a service call may do to an account: the number, the owner, the
    password hash and the class with its limit, fee or rate stay; the log
    only grows, by records whose amounts the validator lets through. *)
Definition efeito_permitido (h h' : Heap) : Prop :=
  forall r,
    mesma_identidade (h r) (h' r) /\
    exists sufixo,
      transacoes (h' r) = (transacoes (h r) ++ sufixo)%list /\
      valores_aceites sufixo.

(** ** Branches and banks ([src/models/agencia.py], [src/models/banco.py])
    and the read-only services of [src/services/banco_service.py]

    The accounts of a branch are references into the store. *)

Module EnderecoM.
Record Endereco : Type := {
  cep : str;
  numero : str;
  rua : str;
  bairro : str;
  cidade : str;
  estado : str
}.
End EnderecoM.

Module AgenciaM.
Record Agencia : Type := {
  nome : str;
  numero : str;
  endereco : EnderecoM.Endereco;
  fone : str;
  contas : list ref
}.
End AgenciaM.

Module BancoM.
Record Banco : Type := {
  nome : str;
  cnpj : str;
  endereco : EnderecoM.Endereco;
  fone : str;
  agencias : list AgenciaM.Agencia
}.
End BancoM.

Module banco_service.

(** [todas_contas = []; for agencia in banco.agencias:
    todas_contas.extend(agencia.contas)] *)
Definition listar_todas_contas_banco (banco : BancoM.Banco) : list ref :=
  fold_left (fun todas_contas agencia =>
               (todas_contas ++ AgenciaM.contas agencia)%list)
            (BancoM.agencias banco) [].

(** [saldo_total = 0.0; for agencia ...: for conta ...:
    saldo_total += conta.saldo] *)
Definition calcular_saldo_total_banco (banco : BancoM.Banco) : M Heap float :=
  gets (fun h =>
    fold_left (fun saldo_total agencia =>
                 fold_left (fun saldo_total conta =>
                              (saldo_total + saldo (h conta))%f64)
                           (AgenciaM.contas agencia) saldo_total)
              (BancoM.agencias banco) zero).

End banco_service.

(** The balances of a list of account references, added from left to
    right starting at [0.0]. *)
Definition soma_saldos (h : Heap) (contas : list ref) : float :=
  fold_left (fun total conta => (total + saldo (h conta))%f64) contas zero.

(** ** The correspondence of the two forms *)



(** Two accounts in the legacy form, nothing printed yet: a checking
    account with balance [s] and limit [l] at reference 0, a savings
    account with balance 15000 elsewhere. *)
Definition mundo_de (s l : float) : Legado.Mundo :=
  {| Legado.objetos := fun r =>
       match r with
       | O => {| Legado._numero := utf8 "001"; Legado._cliente := 7%nat;
                 Legado._saldo := s; Legado._senha := utf8 "1234";
                 Legado._transacoes := [];
                 Legado.classe := Legado.Conta_CorrenteT l (inteiro 10) |}
       | _ => {| Legado._numero := utf8 "001"; Legado._cliente := 7%nat;
                 Legado._saldo := inteiro 15000; Legado._senha := utf8 "2508";
                 Legado._transacoes := [];
                 Legado.classe := Legado.Conta_PoupancaT (decimal 1 2) 3 |}
       end;
     Legado.saida := [] |}.

Definition mundo_padrao : Legado.Mundo :=
  mundo_de (inteiro 1000) (inteiro 1000).

(** The legacy world after one more line was printed. *)
Definition com_saida (w : Legado.Mundo) (n : Legado.Notificacao)
  : Legado.Mundo :=
  {| Legado.objetos := Legado.objetos w;
     Legado.saida := (Legado.saida w ++ [n])%list |}.

(** The fields that the constructor of a checking account refuses, in
    field order. *)
Definition recusados_corrente (n : str) (s l : float) : list string :=
  ((if vazio (strip n) then ["numero"] else [])
   ++ (if (s <? zero)%f64 then ["saldo"] else [])
   ++ (if (l <? zero)%f64 then ["limite"] else []))%list.

(** The fields that the constructor of a savings account refuses, in field
    order. *)
Definition recusados_poupanca (n : str) (s t : float) (d : Z)
  : list string :=
  ((if vazio (strip n) then ["numero"] else [])
   ++ (if (s <? zero)%f64 then ["saldo"] else [])
   ++ (if (t <=? zero)%f64 then ["taxa_rendimento"] else [])
   ++ (if negb ((1 <=? d)%Z && (d <=? 31)%Z)
       then ["data_aniversario"] else []))%list.


(** A bank with one branch that lists the two accounts of the fixtures. *)
Definition banco_padrao : BancoM.Banco :=
  let endereco :=
    {| EnderecoM.cep := utf8 "79002-000"; EnderecoM.numero := utf8 "123";
       EnderecoM.rua := utf8 "Rua das Flores";
       EnderecoM.bairro := utf8 "Centro";
       EnderecoM.cidade := utf8 "Campo Grande";
       EnderecoM.estado := utf8 "MS" |} in
  {| BancoM.nome := utf8 "Banco Teste";
     BancoM.cnpj := utf8 "11.222.333/0001-81";
     BancoM.endereco := endereco; BancoM.fone := utf8 "(67) 3321-0000";
     BancoM.agencias :=
       [{| AgenciaM.nome := utf8 "Agência Central";
           AgenciaM.numero := utf8 "0001";
           AgenciaM.endereco := endereco;
           AgenciaM.fone := utf8 "(67) 3321-4567";
           AgenciaM.contas := [0%nat; 1%nat] |}] |}.

(** * Properties *)

Unset Implicit Arguments.

(** ** Comparisons of floats *)

Lemma SFcompare_antisym (x y : float) (c : comparison) :
  SFcompare x y = Some c -> SFcompare y x = Some (CompOpp c).
Proof.
  destruct x as [sx|sx| |sx mx ex], y as [sy|sy| |sy my ey]; simpl;
    try discriminate;
    try (destruct sx; intros [= <-]; reflexivity);
    try (destruct sy; intros [= <-]; reflexivity);
    try (destruct sx, sy; intros [= <-]; reflexivity).
  intros [= <-]. f_equal.
  change (Pcompare my mx Eq) with (Pos.compare my mx).
  change (Pcompare mx my Eq) with (Pos.compare mx my).
  rewrite (Z.compare_antisym ex ey), (Pos.compare_antisym mx my).
  destruct sx, sy; try reflexivity;
    destruct (ex ?= ey)%Z; simpl; try reflexivity;
    destruct (mx ?= my)%positive; reflexivity.
Qed.

Lemma SFcompare_numeros (x y : float) :
  e_nan x = false -> e_nan y = false -> exists c, SFcompare x y = Some c.
Proof.
  destruct x, y; simpl; try discriminate; intros _ _; eauto.
Qed.

(** Between two numbers, [a < b] is false exactly when [b <= a]. *)
Lemma flt_false_iff (a b : float) :
  e_nan a = false -> e_nan b = false ->
  ((a <? b)%f64 = false <-> (b <=? a)%f64 = true).
Proof.
  intros Ha Hb. destruct (SFcompare_numeros a b Ha Hb) as [c Hc].
  unfold flt, fle, SFltb, SFleb.
  rewrite Hc, (SFcompare_antisym a b c Hc).
  destruct c; simpl; split; congruence.
Qed.

(** Between two numbers, [a <= b] is false exactly when [b < a]. *)
Lemma fle_false_iff (a b : float) :
  e_nan a = false -> e_nan b = false ->
  ((a <=? b)%f64 = false <-> (b <? a)%f64 = true).
Proof.
  intros Ha Hb. destruct (SFcompare_numeros a b Ha Hb) as [c Hc].
  unfold flt, fle, SFltb, SFleb.
  rewrite Hc, (SFcompare_antisym a b c Hc).
  destruct c; simpl; split; congruence.
Qed.

(** ** Reads through the updates of a store *)

Lemma atualiza_eq h r c : atualiza h r c r = c.
Proof. unfold atualiza. now rewrite Nat.eqb_refl. Qed.

Lemma atualiza_ne h r c r' : r' <> r -> atualiza h r c r' = h r'.
Proof.
  intros Hne. unfold atualiza.
  destruct (Nat.eqb_spec r r'); congruence.
Qed.

Ltac heap_simpl :=
  repeat (rewrite atualiza_eq
          || rewrite atualiza_ne by (assumption || congruence));
  cbn [saldo transacoes numero classe cliente senha_hash
       com_saldo com_transacoes].

Lemma mesma_identidade_refl c : mesma_identidade c c.
Proof. repeat split. Qed.

(** ** Transactions *)

(** A transaction whose amount passes [valor <= 0] and whose label is not
    blank is accepted, and keeps the stripped label. *)
Lemma Transacao_init_ok (S : Type) t v c (s : S) :
  vazio (strip t) = false -> (v <=? zero)%f64 = false ->
  Transacao_init t v c s =
    (Retorna {| tipo := strip t; valor := v; conta := c |}, s).
Proof.
  intros Ht Hv.
  unfold Transacao_init, construir, Transacao_validar, bind, campo,
    validar_tipo_nao_vazio, validar_valor_positivo.
  rewrite Ht, Hv. reflexivity.
Qed.

(** The same for a label that is stripped already, as the literals of the
    services are. *)
Lemma Transacao_init_rotulo (S : Type) t v c (s : S) :
  strip t = t -> vazio t = false -> (v <=? zero)%f64 = false ->
  Transacao_init t v c s =
    (Retorna {| tipo := t; valor := v; conta := c |}, s).
Proof.
  intros Hs Ht Hv.
  rewrite Transacao_init_ok by (rewrite ?Hs; assumption).
  now rewrite Hs.
Qed.

(** ** The two withdrawal rules, as case tables *)

Lemma ContaCorrente_sacar_casos h self L taxa x :
  classe (h self) = ContaCorrenteT L taxa ->
  ContaCorrente.sacar self x h =
    if (x <=? zero)%f64 then (Levanta (ValorInvalidoError x), h)
    else if (saldo (h self) + L <? x)%f64
         then (Levanta (LimiteExcedidoError (saldo (h self) + L) x), h)
         else (Retorna tt,
               atualiza h self (com_saldo (h self) (saldo (h self) - x))).
Proof.
  intros Hc. unfold ContaCorrente.sacar.
  destruct (x <=? zero)%f64; [reflexivity|].
  unfold bind, ler_saldo, ler_limite, gets. rewrite Hc.
  destruct (_ <? x)%f64; reflexivity.
Qed.

Lemma ContaPoupanca_sacar_casos h self x :
  ContaPoupanca.sacar self x h =
    if (x <=? zero)%f64 then (Levanta (ValorInvalidoError x), h)
    else if (saldo (h self) <? x)%f64
         then (Levanta (SaldoInsuficienteError (saldo (h self)) x), h)
         else (Retorna tt,
               atualiza h self (com_saldo (h self) (saldo (h self) - x))).
Proof.
  unfold ContaPoupanca.sacar.
  destruct (x <=? zero)%f64; [reflexivity|].
  unfold bind, ler_saldo, gets.
  destruct (_ <? x)%f64; reflexivity.
Qed.

Lemma sacar_corrente h self L taxa x :
  classe (h self) = ContaCorrenteT L taxa ->
  sacar self x h = ContaCorrente.sacar self x h.
Proof. intros Hc. unfold sacar. now rewrite Hc. Qed.

Lemma sacar_poupanca h self t d x :
  classe (h self) = ContaPoupancaT t d ->
  sacar self x h = ContaPoupanca.sacar self x h.
Proof. intros Hc. unfold sacar. now rewrite Hc. Qed.

(** ** Withdrawal from a checking account *)

(** The withdrawal service on a checking account, as a case table. *)
Lemma realizar_saque_corrente_casos h conta L taxa x :
  classe (h conta) = ContaCorrenteT L taxa ->
  conta_service.realizar_saque conta x h =
    if (x <=? zero)%f64 then (Levanta (ValorInvalidoError x), h)
    else if (saldo (h conta) + L <? x)%f64
         then (Levanta (LimiteExcedidoError (saldo (h conta) + L) x), h)
         else
           let h1 :=
             atualiza h conta (com_saldo (h conta) (saldo (h conta) - x)) in
           (Retorna tt,
            atualiza h1 conta
              (com_transacoes (h1 conta)
                 (transacoes (h1 conta)
                    ++ [{| tipo := utf8 "Saque"; valor := x;
                           conta := conta |}]))).
Proof.
  intros Hc. unfold conta_service.realizar_saque, bind.
  rewrite (sacar_corrente h conta L taxa x Hc),
    (ContaCorrente_sacar_casos h conta L taxa x Hc).
  destruct (x <=? zero)%f64 eqn:Hx; [reflexivity|].
  destruct (_ <? x)%f64; [reflexivity|].
  rewrite Transacao_init_rotulo by (reflexivity || assumption).
  reflexivity.
Qed.

(** C1, as stated, fails.  With balance 0.21 and limit 0.11 the amount 0.32
    is above the sum of the two as real numbers, and the withdrawal
    returns: the code compares with the rounded sum, which is 0.32, and the
    balance left, -0.11000000000000001, is below minus the limit.  And an
    amount that is NaN is not above zero, yet passes both tests: the
    withdrawal returns and the balance is NaN. *)
Lemma saque_acima_da_soma_exata :
  let h := heap_de (corrente_de (decimal 21 100) (decimal 11 100)
                      (inteiro 10))
                   conta_poupanca_padrao in
  let r := conta_service.realizar_saque 0%nat (decimal 32 100) h in
  (exato (decimal 21 100) + exato (decimal 11 100)
   < exato (decimal 32 100))%Q
  /\ fst r = Retorna tt
  /\ saldo (snd r 0%nat) = S754_finite true 7926335344172074 (-56)
  /\ (exato (saldo (snd r 0%nat)) < - exato (decimal 11 100))%Q
  /\ (zero <? nan)%f64 = false
  /\ fst (conta_service.realizar_saque 0%nat nan heap_padrao) = Retorna tt
  /\ saldo (snd (conta_service.realizar_saque 0%nat nan heap_padrao) 0%nat)
     = nan.
Proof. vm_compute. repeat split. Qed.

(** C1, amended.  For a checking account with balance [B] and limit [L],
    let [limite_total] be the binary64 sum [B + L] as the code computes
    it.  The withdrawal service returns normally iff neither test of the
    code fires: [x <= 0] is false and [x > limite_total] is false; when
    [x] and [limite_total] are numbers that is [0 < x <= limite_total].
    An amount with [x <= 0] raises [ValorInvalidoError x]; otherwise an
    amount with [x > limite_total] raises
    [LimiteExcedidoError limite_total x].  On success the balance read
    back is the rounded difference [B - x], the log read back is the old
    log with exactly one more record, ["Saque"] of amount [x], and nothing
    else changes.  On failure the store is unchanged. *)
Theorem realizar_saque_conta_corrente (h : Heap) (conta : ref)
    (L taxa x : float) :
  classe (h conta) = ContaCorrenteT L taxa ->
  let B := saldo (h conta) in
  let limite_total := (B + L)%f64 in
  let r := conta_service.realizar_saque conta x h in
  (retornou (fst r) = true <->
   (x <=? zero)%f64 = false /\ (limite_total <? x)%f64 = false)
  /\ (e_nan x = false -> e_nan limite_total = false ->
      (retornou (fst r) = true <->
       (zero <? x)%f64 = true /\ (x <=? limite_total)%f64 = true))
  /\ ((x <=? zero)%f64 = true -> r = (Levanta (ValorInvalidoError x), h))
  /\ ((x <=? zero)%f64 = false -> (limite_total <? x)%f64 = true ->
      r = (Levanta (LimiteExcedidoError limite_total x), h))
  /\ ((x <=? zero)%f64 = false -> (limite_total <? x)%f64 = false ->
      exists h',
        r = (Retorna tt, h') /\
        saldo (h' conta) = (B - x)%f64 /\
        transacoes (h' conta) =
          (transacoes (h conta)
             ++ [{| tipo := utf8 "Saque"; valor := x; conta := conta |}])%list
        /\ mesma_identidade (h conta) (h' conta)
        /\ (forall r', r' <> conta -> h' r' = h r'))
  /\ (retornou (fst r) = false -> snd r = h).
Proof.
  intros Hc B limite_total r. subst r.
  rewrite (realizar_saque_corrente_casos h conta L taxa x Hc).
  fold B. fold limite_total.
  assert (Hnum : e_nan x = false -> e_nan limite_total = false ->
                 ((x <=? zero)%f64 = false /\
                  (limite_total <? x)%f64 = false <->
                  (zero <? x)%f64 = true /\
                  (x <=? limite_total)%f64 = true)).
  { intros Hx HS.
    rewrite (fle_false_iff x zero Hx eq_refl),
      (flt_false_iff limite_total x HS Hx).
    tauto. }
  destruct (x <=? zero)%f64 eqn:Hx;
    [|destruct (limite_total <? x)%f64 eqn:Hl];
    cbv zeta; cbn [fst snd retornou].
  - split; [split; [discriminate|intros [F _]; discriminate]|].
    split; [intros Nx NS; split; [discriminate|]|].
    { intros Hp. apply (Hnum Nx NS) in Hp. destruct Hp; discriminate. }
    repeat split; intros; try reflexivity; discriminate.
  - split; [split; [discriminate|intros [_ F]; discriminate]|].
    split; [intros Nx NS; split; [discriminate|]|].
    { intros Hp. apply (Hnum Nx NS) in Hp. destruct Hp; discriminate. }
    repeat split; intros; try reflexivity; discriminate.
  - split; [split; [intros _; now split|reflexivity]|].
    split; [intros Nx NS; split; [intros _|reflexivity]|].
    { apply (Hnum Nx NS). now split. }
    split; [discriminate|]. split; [discriminate|].
    split; [|discriminate].
    intros _ _. eexists. split; [reflexivity|].
    repeat split; intros; heap_simpl; reflexivity.
Qed.

Lemma realizar_saque_conta_corrente_witness :
  classe (heap_padrao 0%nat) = ContaCorrenteT (inteiro 500) (inteiro 10) /\
  (retornou (fst (conta_service.realizar_saque 0%nat (inteiro 400)
                    heap_padrao)) = true
   <-> (inteiro 400 <=? zero)%f64 = false /\
       (saldo (heap_padrao 0%nat) + inteiro 500 <? inteiro 400)%f64 = false).
Proof.
  split; [reflexivity|].
  exact (proj1 (realizar_saque_conta_corrente heap_padrao 0%nat
                  (inteiro 500) (inteiro 10) (inteiro 400) eq_refl)).
Defined.

(** ** Withdrawal from a savings account *)

(** C2, as stated, fails.  An amount that is NaN is not above zero, yet
    [ContaPoupanca.sacar] returns on it and leaves the balance NaN.  And
    the balance after a withdrawal is the rounded difference: taking 1e-17
    from a balance of 1.0 returns and leaves 1.0. *)
Lemma saque_de_nan_retorna :
  let r := ContaPoupanca.sacar 1%nat nan heap_padrao in
  (zero <? nan)%f64 = false
  /\ fst r = Retorna tt
  /\ saldo (snd r 1%nat) = nan
  /\ (let h := heap_de conta_corrente_padrao
                 (poupanca_de (inteiro 1) (decimal 1 2)) in
      let r := ContaPoupanca.sacar 1%nat (decimal 1 (10 ^ 17)) h in
      (0 < exato (decimal 1 (10 ^ 17)))%Q
      /\ fst r = Retorna tt
      /\ saldo (snd r 1%nat) = inteiro 1).
Proof. vm_compute. repeat split. Qed.

(** C2, amended.  For a savings account with balance [B],
    [ContaPoupanca.sacar] returns normally iff neither test of the code
    fires: [x <= 0] is false and [x > B] is false; when [x] and [B] are
    numbers that is [0 < x <= B].  An amount with [x <= 0] raises
    [ValorInvalidoError x]; otherwise an amount with [x > B] raises
    [SaldoInsuficienteError B x].  On success the balance read back is the
    rounded difference [B - x] and nothing else changes, the log included;
    on failure the store, and with it the balance and the log, is
    unchanged. *)
Theorem ContaPoupanca_sacar_regra (h : Heap) (self : ref) (x : float) :
  let B := saldo (h self) in
  let r := ContaPoupanca.sacar self x h in
  (retornou (fst r) = true <->
   (x <=? zero)%f64 = false /\ (B <? x)%f64 = false)
  /\ (e_nan x = false -> e_nan B = false ->
      (retornou (fst r) = true <->
       (zero <? x)%f64 = true /\ (x <=? B)%f64 = true))
  /\ ((x <=? zero)%f64 = true -> r = (Levanta (ValorInvalidoError x), h))
  /\ ((x <=? zero)%f64 = false -> (B <? x)%f64 = true ->
      r = (Levanta (SaldoInsuficienteError B x), h))
  /\ ((x <=? zero)%f64 = false -> (B <? x)%f64 = false ->
      exists h',
        r = (Retorna tt, h') /\
        saldo (h' self) = (B - x)%f64 /\
        transacoes (h' self) = transacoes (h self) /\
        mesma_identidade (h self) (h' self) /\
        (forall r', r' <> self -> h' r' = h r'))
  /\ (retornou (fst r) = false ->
      snd r = h
      /\ saldo (snd r self) = B
      /\ transacoes (snd r self) = transacoes (h self)).
Proof.
  intros B r. subst r. rewrite ContaPoupanca_sacar_casos. fold B.
  assert (Hnum : e_nan x = false -> e_nan B = false ->
                 ((x <=? zero)%f64 = false /\ (B <? x)%f64 = false <->
                  (zero <? x)%f64 = true /\ (x <=? B)%f64 = true)).
  { intros Hx HB.
    rewrite (fle_false_iff x zero Hx eq_refl), (flt_false_iff B x HB Hx).
    tauto. }
  destruct (x <=? zero)%f64 eqn:Hx; [|destruct (B <? x)%f64 eqn:Hl];
    cbn [fst snd retornou].
  - split; [split; [discriminate|intros [F _]; discriminate]|].
    split; [intros Nx NB; split; [discriminate|]|].
    { intros Hp. apply (Hnum Nx NB) in Hp. destruct Hp; discriminate. }
    repeat split; intros; try reflexivity; discriminate.
  - split; [split; [discriminate|intros [_ F]; discriminate]|].
    split; [intros Nx NB; split; [discriminate|]|].
    { intros Hp. apply (Hnum Nx NB) in Hp. destruct Hp; discriminate. }
    repeat split; intros; try reflexivity; discriminate.
  - split; [split; [intros _; now split|reflexivity]|].
    split; [intros Nx NB; split; [intros _|reflexivity]|].
    { apply (Hnum Nx NB). now split. }
    split; [discriminate|]. split; [discriminate|].
    split; [|discriminate].
    intros _ _. eexists. split; [reflexivity|].
    repeat split; intros; heap_simpl; reflexivity.
Qed.

Lemma ContaPoupanca_sacar_regra_witness :
  ((inteiro 250 <=? zero)%f64 = false /\
   (saldo (heap_padrao 1%nat) <? inteiro 250)%f64 = false) /\
  exists h',
    ContaPoupanca.sacar 1%nat (inteiro 250) heap_padrao = (Retorna tt, h') /\
    saldo (h' 1%nat) = inteiro 4750.
Proof.
  split; [split; reflexivity|].
  destruct (proj1 (proj2 (proj2 (proj2 (proj2
              (ContaPoupanca_sacar_regra heap_padrao 1%nat (inteiro 250))))))
              eq_refl eq_refl)
    as (h' & Hr & Hs & _).
  exists h'. split; [exact Hr|]. rewrite Hs. reflexivity.
Defined.

(** ** Labels and white space *)

Lemma lstrip_snoc (l : str) c :
  isspace c = false -> exists l', lstrip (l ++ [c]) = (l' ++ [c])%list.
Proof.
  intros Hc. induction l as [|a l IH]; simpl.
  - rewrite Hc. now exists [].
  - destruct (isspace a); [exact IH|]. now exists (a :: l).
Qed.

Lemma lstrip_sem_espaco_inicial l : sem_espaco_inicial (lstrip l).
Proof.
  induction l as [|c l IH]; simpl; [exact I|].
  destruct (isspace c) eqn:Hc; [exact IH|exact Hc].
Qed.

Lemma lstrip_ja_limpo l : sem_espaco_inicial l -> lstrip l = l.
Proof. destruct l as [|c l]; simpl; [reflexivity|]. now intros ->. Qed.

Lemma sem_espaco_inicial_app (l1 l2 : str) :
  l1 <> [] -> sem_espaco_inicial l1 -> sem_espaco_inicial (l1 ++ l2).
Proof. destruct l1; [congruence|]. now simpl. Qed.

(** What [strip] leaves neither starts nor ends with white space. *)
Lemma strip_limpo v :
  sem_espaco_inicial (strip v) /\ sem_espaco_inicial (rev (strip v)).
Proof.
  unfold strip.
  set (m := lstrip v).
  assert (Hm : sem_espaco_inicial m) by apply lstrip_sem_espaco_inicial.
  rewrite rev_involutive. split; [|apply lstrip_sem_espaco_inicial].
  clearbody m. destruct m as [|c m]; [exact I|].
  simpl in Hm. simpl rev.
  destruct (lstrip_snoc (rev m) c Hm) as [l' ->].
  rewrite rev_app_distr. exact Hm.
Qed.

(** A string that neither starts nor ends with white space is its own
    [strip]. *)
Lemma strip_ja_limpo v :
  sem_espaco_inicial v -> sem_espaco_inicial (rev v) -> strip v = v.
Proof.
  intros Hini Hfim. unfold strip.
  rewrite (lstrip_ja_limpo v Hini), (lstrip_ja_limpo (rev v) Hfim).
  apply rev_involutive.
Qed.

Lemma strip_idempotente v : strip (strip v) = strip v.
Proof.
  destruct (strip_limpo v) as [Hini Hfim]. now apply strip_ja_limpo.
Qed.

(** A label that starts with a character that is not white space is not
    blank. *)
Lemma strip_nao_vazio c s :
  isspace c = false -> vazio (strip (c :: s)) = false.
Proof.
  intros Hc. unfold strip. simpl lstrip. rewrite Hc. simpl rev.
  destruct (lstrip_snoc (rev s) c Hc) as [l' ->].
  rewrite rev_app_distr. reflexivity.
Qed.

(** A label made of a prefix that starts with a visible character and of a
    number that [strip] produced is kept as it is by [strip]. *)
Lemma strip_rotulo c p v :
  isspace c = false ->
  vazio (strip v) = false ->
  strip ((c :: p) ++ strip v) = ((c :: p) ++ strip v)%list.
Proof.
  intros Hc Hv.
  destruct (strip_limpo v) as [_ Hfim].
  apply strip_ja_limpo; [exact Hc|].
  rewrite rev_app_distr.
  apply sem_espaco_inicial_app; [|exact Hfim].
  intros Hrev. destruct (strip v) as [|a n]; [discriminate|].
  apply (f_equal (@List.length N)) in Hrev.
  rewrite length_rev in Hrev. discriminate.
Qed.

(** The two prefixes of the transfer labels start with a letter. *)
Lemma prefixos_de_transferencia :
  exists p q,
    utf8 "Transf. para " = 84%N :: p /\ utf8 "Transf. de " = 84%N :: q.
Proof. eexists. eexists. split; vm_compute; reflexivity. Qed.

(** ** Transfers *)

(** What the polymorphic [sacar] does when it returns, and when it raises. *)
Lemma sacar_retorna h self x h1 :
  sacar self x h = (Retorna tt, h1) ->
  (x <=? zero)%f64 = false /\
  h1 = atualiza h self (com_saldo (h self) (saldo (h self) - x)).
Proof.
  unfold sacar. destruct (classe (h self)) as [L t|t d] eqn:Hc.
  - rewrite (ContaCorrente_sacar_casos h self L t x Hc).
    destruct (x <=? zero)%f64 eqn:Hx; [discriminate|].
    destruct (_ <? x)%f64; [discriminate|].
    intros [= <-]. now split.
  - rewrite ContaPoupanca_sacar_casos.
    destruct (x <=? zero)%f64 eqn:Hx; [discriminate|].
    destruct (_ <? x)%f64; [discriminate|].
    intros [= <-]. now split.
Qed.

Lemma sacar_levanta h self x e h1 :
  sacar self x h = (Levanta e, h1) -> h1 = h.
Proof.
  unfold sacar. destruct (classe (h self)) as [L t|t d] eqn:Hc.
  - rewrite (ContaCorrente_sacar_casos h self L t x Hc).
    destruct (x <=? zero)%f64; [now intros [= _ <-]|].
    destruct (_ <? x)%f64; [now intros [= _ <-]|discriminate].
  - rewrite ContaPoupanca_sacar_casos.
    destruct (x <=? zero)%f64; [now intros [= _ <-]|].
    destruct (_ <? x)%f64; [now intros [= _ <-]|discriminate].
Qed.

Lemma transferir_retorna h o d x h1 :
  sacar o x h = (Retorna tt, h1) ->
  conta_service.transferir o d x h =
    let h2 :=
      atualiza h1 o
        (com_transacoes (h1 o)
           (transacoes (h1 o)
              ++ [{| tipo := strip (utf8 "Transf. para " ++ numero (h1 d));
                     valor := x; conta := o |}])) in
    let h3 := atualiza h2 d (com_saldo (h2 d) (saldo (h2 d) + x)) in
    (Retorna tt,
     atualiza h3 d
       (com_transacoes (h3 d)
          (transacoes (h3 d)
             ++ [{| tipo := strip (utf8 "Transf. de " ++ numero (h3 o));
                    valor := x; conta := d |}]))).
Proof.
  intros Hs. destruct (sacar_retorna h o x h1 Hs) as [Hx _].
  destruct prefixos_de_transferencia as (p & q & Hp & Hq).
  unfold conta_service.transferir, bind. rewrite Hs.
  unfold ler_numero, ler_saldo, escrever_saldo, transacoes_append,
    gets, modify.
  rewrite Hp, Hq.
  rewrite Transacao_init_ok
    by (apply strip_nao_vazio || assumption; reflexivity).
  rewrite Transacao_init_ok
    by (apply strip_nao_vazio || assumption; reflexivity).
  reflexivity.
Qed.

(** C3. [transferir] first withdraws from the source under the rule of the
    source's own class.  If that step raises, the transfer raises the same
    exception and the store is unchanged: no deposit, no transaction on
    either side.  If it returns, the destination is credited without any
    check, and each side gets exactly one new transaction of the amount,
    labelled with the number of the other account (the label goes through
    the [strip] of the transaction's validator, which keeps it as it is for
    a number stored by the account constructor).  In the scenario of the
    tests (checking 1000 with limit 500, savings 5000): 400 gives 600 and
    5400 and one new record each; 10000 raises [LimiteExcedidoError] and the
    store is unchanged. *)
Theorem transferir_regra :
  (forall (h : Heap) (origem destino : ref) (x : float) e h1,
      sacar origem x h = (Levanta e, h1) ->
      conta_service.transferir origem destino x h = (Levanta e, h))
  /\ (forall (h : Heap) (origem destino : ref) (x : float) h1,
      origem <> destino ->
      sacar origem x h = (Retorna tt, h1) ->
      exists h',
        conta_service.transferir origem destino x h = (Retorna tt, h') /\
        h' origem =
          com_transacoes
            (com_saldo (h origem) (saldo (h origem) - x))
            (transacoes (h origem)
               ++ [{| tipo := strip (utf8 "Transf. para "
                                     ++ numero (h destino));
                      valor := x; conta := origem |}]) /\
        h' destino =
          com_transacoes
            (com_saldo (h destino) (saldo (h destino) + x))
            (transacoes (h destino)
               ++ [{| tipo := strip (utf8 "Transf. de "
                                     ++ numero (h origem));
                      valor := x; conta := destino |}]) /\
        forall r, r <> origem -> r <> destino -> h' r = h r)
  /\ (let r := conta_service.transferir 0%nat 1%nat (inteiro 400)
                 heap_padrao in
      fst r = Retorna tt
      /\ saldo (snd r 0%nat) = inteiro 600
      /\ saldo (snd r 1%nat) = inteiro 5400
      /\ transacoes (snd r 0%nat) =
           [{| tipo := utf8 "Transf. para 98765-4"; valor := inteiro 400;
               conta := 0%nat |}]
      /\ transacoes (snd r 1%nat) =
           [{| tipo := utf8 "Transf. de 12345-6"; valor := inteiro 400;
               conta := 1%nat |}])
  /\ (let r := conta_service.transferir 0%nat 1%nat (inteiro 10000)
                 heap_padrao in
      r = (Levanta (LimiteExcedidoError (inteiro 1500) (inteiro 10000)),
           heap_padrao))
  /\ (forall v : str,
      vazio (strip v) = false ->
      strip (utf8 "Transf. para " ++ strip v)
        = (utf8 "Transf. para " ++ strip v)%list /\
      strip (utf8 "Transf. de " ++ strip v)
        = (utf8 "Transf. de " ++ strip v)%list).
Proof.
  split; [|split; [|split; [|split]]].
  - intros h o d x e h1 Hs.
    pose proof (sacar_levanta h o x e h1 Hs) as ->.
    unfold conta_service.transferir, bind. now rewrite Hs.
  - intros h o d x h1 Hne Hs.
    assert (Hdo : d <> o) by congruence.
    rewrite (transferir_retorna h o d x h1 Hs). cbv zeta.
    destruct (sacar_retorna h o x h1 Hs) as [_ ->].
    eexists; split; [reflexivity|].
    repeat split; intros; heap_simpl; reflexivity.
  - vm_compute. repeat split.
  - vm_compute. reflexivity.
  - intros v Hv.
    destruct prefixos_de_transferencia as (p & q & -> & ->).
    split; apply strip_rotulo; (reflexivity || assumption).
Qed.

Lemma transferir_regra_witness :
  0%nat <> 1%nat /\
  exists h',
    conta_service.transferir 0%nat 1%nat (inteiro 400) heap_padrao
      = (Retorna tt, h') /\
    saldo (h' 0%nat) = (inteiro 1000 - inteiro 400)%f64 /\
    saldo (h' 1%nat) = (inteiro 5000 + inteiro 400)%f64.
Proof.
  split; [discriminate|].
  destruct (proj1 (proj2 transferir_regra) heap_padrao 0%nat 1%nat
              (inteiro 400)
              (atualiza heap_padrao 0%nat
                 (com_saldo (heap_padrao 0%nat)
                    (saldo (heap_padrao 0%nat) - inteiro 400)))
              ltac:(discriminate) eq_refl)
    as (h' & Hr & Ho & Hd & _).
  exists h'. rewrite Ho, Hd. repeat split; assumption.
Defined.

(** ** Deposits *)

Lemma realizar_deposito_casos h conta x :
  conta_service.realizar_deposito conta x h =
    if (x <=? zero)%f64 then (Levanta (ValorInvalidoError x), h)
    else
      (Retorna tt,
       atualiza
         (atualiza h conta (com_saldo (h conta) (saldo (h conta) + x)))
         conta
         (com_transacoes
            (com_saldo (h conta) (saldo (h conta) + x))
            (transacoes (h conta)
               ++ [{| tipo := utf8 "Depósito"; valor := x;
                      conta := conta |}]))).
Proof.
  unfold conta_service.realizar_deposito.
  destruct (x <=? zero)%f64 eqn:Hx; [reflexivity|].
  unfold bind, ler_saldo, escrever_saldo, transacoes_append, gets, modify.
  rewrite Transacao_init_rotulo by (reflexivity || assumption).
  heap_simpl. reflexivity.
Qed.

Lemma depositos_em_sequencia (conta : ref) (valores : list float) :
  Forall (fun v => (v <=? zero)%f64 = false) valores ->
  forall h : Heap,
  exists h',
    para_cada (conta_service.realizar_deposito conta) valores h
      = (Retorna tt, h') /\
    saldo (h' conta) = fold_left fadd valores (saldo (h conta)) /\
    List.length (transacoes (h' conta)) =
      (List.length (transacoes (h conta)) + List.length valores)%nat /\
    (forall r, r <> conta -> h' r = h r).
Proof.
  induction 1 as [|v vs Hv _ IH]; intros h.
  - exists h. simpl. repeat split; auto.
  - simpl. unfold bind at 1. rewrite realizar_deposito_casos, Hv.
    match goal with |- context [para_cada _ vs ?h1] =>
      destruct (IH h1) as (h' & Hr & Hs & Hl & Hf) end.
    exists h'. split; [exact Hr|]. split; [|split].
    + rewrite Hs. heap_simpl. reflexivity.
    + rewrite Hl. heap_simpl. rewrite length_app. simpl. lia.
    + intros r Hne. rewrite (Hf r Hne). heap_simpl. reflexivity.
Qed.

(** C4, as stated, fails.  On a balance of 0.1 the deposits of 0.2 and of
    0.3 both return and leave 0.6000000000000001, which is neither the sum
    of the three numbers nor what adding the sum of the amounts, 0.5, to
    0.1 gives; and on a balance of 2.0**53 a deposit of 1.0 returns, is
    logged, and leaves the balance as it was. *)
Lemma depositos_nao_somam :
  let h := heap_de (corrente_de (decimal 1 10) (inteiro 500) (inteiro 10))
                   conta_poupanca_padrao in
  let r := para_cada (conta_service.realizar_deposito 0%nat)
             [decimal 2 10; decimal 3 10] h in
  (zero <? decimal 2 10)%f64 = true /\ (zero <? decimal 3 10)%f64 = true
  /\ fst r = Retorna tt
  /\ saldo (snd r 0%nat) = S754_finite false 5404319552844596 (-53)
  /\ (exato (decimal 1 10) + (exato (decimal 2 10) + exato (decimal 3 10))
      < exato (saldo (snd r 0%nat)))%Q
  /\ saldo (snd r 0%nat)
     <> (decimal 1 10 + (decimal 2 10 + decimal 3 10))%f64
  /\ (let h := heap_de (corrente_de dois_53 (inteiro 500) (inteiro 10))
                 conta_poupanca_padrao in
      let r := conta_service.realizar_deposito 0%nat (inteiro 1) h in
      fst r = Retorna tt
      /\ saldo (snd r 0%nat) = dois_53
      /\ List.length (transacoes (snd r 0%nat)) = 1%nat).
Proof. vm_compute. repeat split. discriminate. Qed.

(** C4, amended.  [realizar_deposito] with an amount [x <= 0] raises
    [ValorInvalidoError x] and leaves the store unchanged.  With any other
    amount (for a number: any [x > 0], however large) it returns, the
    balance read back is the rounded sum of the old balance and [x], the
    log read back is the old log with exactly one more record,
    ["Depósito"] of amount [x], and nothing else changes.  Hence after the
    deposits of a list of such amounts, made one after the other, every
    call has returned, the balance is what adding the amounts to the
    initial balance one by one, in order and rounding each time, gives, and
    the log is longer by the number of deposits. *)
Theorem realizar_deposito_regra :
  (forall (h : Heap) (conta : ref) (x : float),
      (x <=? zero)%f64 = true ->
      conta_service.realizar_deposito conta x h
        = (Levanta (ValorInvalidoError x), h))
  /\ (forall (h : Heap) (conta : ref) (x : float),
      (x <=? zero)%f64 = false ->
      exists h',
        conta_service.realizar_deposito conta x h = (Retorna tt, h') /\
        saldo (h' conta) = (saldo (h conta) + x)%f64 /\
        transacoes (h' conta) =
          (transacoes (h conta)
             ++ [{| tipo := utf8 "Depósito"; valor := x;
                    conta := conta |}])%list /\
        mesma_identidade (h conta) (h' conta) /\
        (forall r, r <> conta -> h' r = h r))
  /\ (forall x : float,
      e_nan x = false ->
      ((x <=? zero)%f64 = false <-> (zero <? x)%f64 = true))
  /\ (forall (h : Heap) (conta : ref) (valores : list float),
      Forall (fun v => (v <=? zero)%f64 = false) valores ->
      exists h',
        para_cada (conta_service.realizar_deposito conta) valores h
          = (Retorna tt, h') /\
        saldo (h' conta) = fold_left fadd valores (saldo (h conta)) /\
        List.length (transacoes (h' conta)) =
          (List.length (transacoes (h conta)) + List.length valores)%nat).
Proof.
  split; [|split; [|split]].
  - intros h conta x Hx. rewrite realizar_deposito_casos. now rewrite Hx.
  - intros h conta x Hx. rewrite realizar_deposito_casos, Hx.
    eexists; split; [reflexivity|].
    repeat split; intros; heap_simpl; reflexivity.
  - intros x Hx. exact (fle_false_iff x zero Hx eq_refl).
  - intros h conta valores Hpos.
    destruct (depositos_em_sequencia conta valores Hpos h)
      as (h' & Hr & Hs & Hl & _).
    exists h'. auto.
Qed.

Lemma realizar_deposito_regra_witness :
  Forall (fun v => (v <=? zero)%f64 = false)
         [inteiro 100; inteiro 250; decimal 1 2] /\
  exists h',
    para_cada (conta_service.realizar_deposito 0%nat)
      [inteiro 100; inteiro 250; decimal 1 2] heap_padrao
      = (Retorna tt, h') /\
    saldo (h' 0%nat) = decimal 27010 20 /\
    List.length (transacoes (h' 0%nat)) = 3%nat.
Proof.
  assert (Hpos : Forall (fun v => (v <=? zero)%f64 = false)
                        [inteiro 100; inteiro 250; decimal 1 2])
    by (repeat constructor).
  split; [exact Hpos|].
  destruct (proj2 (proj2 (proj2 realizar_deposito_regra)) heap_padrao 0%nat
              [inteiro 100; inteiro 250; decimal 1 2] Hpos)
    as (h' & Hr & Hs & Hl).
  exists h'. split; [exact Hr|]. split; [|exact Hl].
  rewrite Hs. vm_compute. reflexivity.
Defined.

(** ** The balance of a checking account along sequences of operations *)

Lemma aplicar_taxas_corrente_casos h conta L taxa :
  classe (h conta) = ContaCorrenteT L taxa ->
  conta_service.aplicar_taxas conta h =
    let depois := (saldo (h conta) - taxa)%f64 in
    let h1 := atualiza h conta (com_saldo (h conta) depois) in
    if (depois <? saldo (h conta))%f64 then
      let taxa_cobrada := (saldo (h conta) - depois)%f64 in
      if (taxa_cobrada <=? zero)%f64
      then (Levanta (ValidationError ["valor"]), h1)
      else
        (Retorna tt,
         atualiza h1 conta
           (com_transacoes (h1 conta)
              (transacoes (h1 conta)
                 ++ [{| tipo := utf8 "Taxa manutenção";
                        valor := taxa_cobrada;
                        conta := conta |}])))
    else (Retorna tt, h1).
Proof.
  intros Hc.
  unfold conta_service.aplicar_taxas, aplicar_taxas, bind, ler_saldo, gets.
  rewrite Hc.
  unfold ContaCorrente.aplicar_taxas, bind, ler_saldo, ler_taxa_manutencao,
    escrever_saldo, gets, modify.
  rewrite Hc. heap_simpl. cbv zeta.
  destruct (saldo (h conta) - taxa <? saldo (h conta))%f64; [|reflexivity].
  cbv beta. heap_simpl.
  destruct (saldo (h conta) - (saldo (h conta) - taxa) <=? zero)%f64 eqn:Hv.
  - unfold Transacao_init, construir, Transacao_validar, bind, campo,
      validar_valor_positivo.
    rewrite Hv. reflexivity.
  - rewrite Transacao_init_rotulo by (reflexivity || assumption).
    unfold transacoes_append, modify. heap_simpl. reflexivity.
Qed.

(** One operation on a checking account: the class and its fields stay,
    the balance moves as [passo] says, no other account changes. *)
Lemma executar_passo h conta L taxa op :
  classe (h conta) = ContaCorrenteT L taxa ->
  let h' := estado_final (executar conta op h) in
  classe (h' conta) = ContaCorrenteT L taxa /\
  saldo (h' conta) = passo L taxa (saldo (h conta)) op /\
  (forall r, r <> conta -> h' r = h r).
Proof.
  intros Hc. destruct op as [x|x|]; cbn [executar passo].
  - rewrite realizar_deposito_casos.
    destruct (x <=? zero)%f64; unfold estado_final; cbn [snd];
      repeat split; intros; heap_simpl; auto.
  - rewrite (realizar_saque_corrente_casos h conta L taxa x Hc).
    destruct (x <=? zero)%f64; [|destruct (_ <? x)%f64];
      unfold estado_final; cbv zeta; cbn [snd];
      repeat split; intros; heap_simpl; auto.
  - rewrite (aplicar_taxas_corrente_casos h conta L taxa Hc). cbv zeta.
    destruct (_ <? saldo (h conta))%f64; [destruct (_ <=? zero)%f64|];
      unfold estado_final; cbn [snd];
      repeat split; intros; heap_simpl; auto.
Qed.

(** C5, as stated, fails, in two ways.  A checking account with balance
    1000 and limit 500 takes a deposit of 100, a withdrawal of 1600 that
    leaves it at -500, and then the maintenance fee, which is deducted
    without any test: the balance is -510, below minus the limit.  And with
    no fee at all: from balance 0.21 and limit 0.11 a withdrawal of 0.32
    returns, because 0.32 is not above the rounded sum of 0.21 and 0.11,
    and leaves -0.11000000000000001, below -0.11. *)
Lemma taxa_leva_abaixo_do_limite :
  classe (heap_padrao 0%nat) = ContaCorrenteT (inteiro 500) (inteiro 10)
  /\ (zero <=? saldo (heap_padrao 0%nat))%f64 = true
  /\ saldo (apos 0%nat
              [Depositar (inteiro 100); Sacar (inteiro 1600); AplicarTaxas]
              heap_padrao 0%nat) = inteiro (-510)
  /\ (inteiro (-510) <? inteiro (-500))%f64 = true
  /\ (let h := heap_de (corrente_de (decimal 21 100) (decimal 11 100)
                          (inteiro 10))
                       conta_poupanca_padrao in
      (zero <=? saldo (h 0%nat))%f64 = true
      /\ saldo (apos 0%nat [Sacar (decimal 32 100)] h 0%nat)
         = S754_finite true 7926335344172074 (-56)
      /\ (S754_finite true 7926335344172074 (-56)
          <? decimal (-11) 100)%f64 = true).
Proof. vm_compute. repeat split. Qed.

(** C5, amended.  On a checking account with limit [L] and fee [t], the
    balance after any sequence of deposits, withdrawals and fee
    applications (with a caller that goes on after an exception) is the
    initial balance moved, operation by operation, as follows: a deposit of
    [v] adds [v] unless [v <= 0]; a withdrawal of [v] subtracts [v] unless
    [v <= 0] or [v] is above the rounded sum of the balance and [L], and
    then it changes nothing; a fee application subtracts [t] whatever the
    balance.  The limit and the fee stay as they are and no other account
    changes.  The limit is looked at by the withdrawal alone, at the moment
    of the call and against the rounded sum; minus the limit is not a lower
    bound of the balance. *)
Theorem saldo_operacao_por_operacao (h : Heap) (conta : ref)
    (L taxa : float) (ops : list Operacao) :
  classe (h conta) = ContaCorrenteT L taxa ->
  classe (apos conta ops h conta) = ContaCorrenteT L taxa
  /\ saldo (apos conta ops h conta)
     = fold_left (passo L taxa) ops (saldo (h conta))
  /\ (forall r, r <> conta -> apos conta ops h r = h r).
Proof.
  revert h. induction ops as [|op ops IH]; intros h Hc.
  - simpl. auto.
  - destruct (executar_passo h conta L taxa op Hc) as (Hc' & Hs' & Hf').
    change (apos conta (op :: ops) h)
      with (apos conta ops (estado_final (executar conta op h))).
    destruct (IH _ Hc') as (Hc'' & Hs'' & Hf'').
    split; [exact Hc''|]. split.
    + rewrite Hs'', Hs'. reflexivity.
    + intros r Hr. rewrite (Hf'' r Hr). exact (Hf' r Hr).
Qed.

Lemma saldo_operacao_por_operacao_witness :
  classe (heap_padrao 0%nat) = ContaCorrenteT (inteiro 500) (inteiro 10) /\
  saldo (apos 0%nat
           [Depositar (inteiro 100); Sacar (inteiro 1600);
            Sacar (inteiro 1); AplicarTaxas]
           heap_padrao 0%nat)
    = fold_left (passo (inteiro 500) (inteiro 10))
        [Depositar (inteiro 100); Sacar (inteiro 1600);
         Sacar (inteiro 1); AplicarTaxas]
        (inteiro 1000).
Proof.
  split; [reflexivity|].
  exact (proj1 (proj2 (saldo_operacao_por_operacao heap_padrao 0%nat
                         (inteiro 500) (inteiro 10)
                         [Depositar (inteiro 100); Sacar (inteiro 1600);
                          Sacar (inteiro 1); AplicarTaxas]
                         eq_refl))).
Defined.

(** ** Violations: raised in the layered version, printed in the monolith *)

Lemma realizar_saque_poupanca_casos h conta t d x :
  classe (h conta) = ContaPoupancaT t d ->
  conta_service.realizar_saque conta x h =
    if (x <=? zero)%f64 then (Levanta (ValorInvalidoError x), h)
    else if (saldo (h conta) <? x)%f64
         then (Levanta (SaldoInsuficienteError (saldo (h conta)) x), h)
         else
           let h1 :=
             atualiza h conta (com_saldo (h conta) (saldo (h conta) - x)) in
           (Retorna tt,
            atualiza h1 conta
              (com_transacoes (h1 conta)
                 (transacoes (h1 conta)
                    ++ [{| tipo := utf8 "Saque"; valor := x;
                           conta := conta |}]))).
Proof.
  intros Hc. unfold conta_service.realizar_saque, bind.
  rewrite (sacar_poupanca h conta t d x Hc), ContaPoupanca_sacar_casos.
  destruct (x <=? zero)%f64 eqn:Hx; [reflexivity|].
  destruct (_ <? x)%f64; [reflexivity|].
  rewrite Transacao_init_rotulo by (reflexivity || assumption).
  reflexivity.
Qed.

Lemma realizar_saque_valor_invalido h conta x :
  (x <=? zero)%f64 = true ->
  conta_service.realizar_saque conta x h = (Levanta (ValorInvalidoError x), h).
Proof.
  intros Hx.
  destruct (classe (h conta)) as [L t|t d] eqn:Hc.
  - rewrite (realizar_saque_corrente_casos h conta L t x Hc). now rewrite Hx.
  - rewrite (realizar_saque_poupanca_casos h conta t d x Hc). now rewrite Hx.
Qed.

Lemma Legado_depositar_valor_invalido w self x :
  (x <=? zero)%f64 = true ->
  Legado.depositar self x w
    = (Retorna tt, com_saida w Legado.erro_valor_invalido).
Proof.
  intros Hx. unfold Legado.depositar. rewrite Hx. reflexivity.
Qed.

Lemma Legado_sacar_valor_invalido w self x :
  (x <=? zero)%f64 = true ->
  Legado.sacar self x w
    = (Retorna tt, com_saida w Legado.erro_valor_invalido).
Proof.
  intros Hx.
  unfold Legado.sacar, Legado.Conta_Corrente_sacar,
    Legado.Conta_Poupanca_sacar.
  rewrite Hx. destruct (Legado.classe _); reflexivity.
Qed.

Lemma Legado_sacar_limite_excedido w self L t x :
  Legado.classe (Legado.objetos w self) = Legado.Conta_CorrenteT L t ->
  (x <=? zero)%f64 = false ->
  (Legado._saldo (Legado.objetos w self) + L <? x)%f64 = true ->
  Legado.sacar self x w
    = (Retorna tt, com_saida w Legado.erro_limite_excedido).
Proof.
  intros Hc Hx Hl.
  unfold Legado.sacar, Legado.Conta_Corrente_sacar. rewrite Hc, Hx.
  unfold bind, Legado.ler_saldo, Legado.ler_limite, gets.
  rewrite Hc, Hl. reflexivity.
Qed.

Lemma Legado_sacar_saldo_insuficiente w self t d x :
  Legado.classe (Legado.objetos w self) = Legado.Conta_PoupancaT t d ->
  (x <=? zero)%f64 = false ->
  (Legado._saldo (Legado.objetos w self) <? x)%f64 = true ->
  Legado.sacar self x w
    = (Retorna tt, com_saida w Legado.erro_saldo_insuficiente).
Proof.
  intros Hc Hx Hl.
  unfold Legado.sacar, Legado.Conta_Poupanca_sacar. rewrite Hc, Hx.
  unfold bind, Legado.ler_saldo, gets.
  rewrite Hl. reflexivity.
Qed.

(** C6, as stated, fails for the legacy monolith: a deposit of 0 is a
    violation, and [Conta.depositar] returns normally: it raises nothing,
    it prints the warning and leaves. *)
Lemma legado_deposito_invalido_retorna :
  (zero <=? zero)%f64 = true /\
  Legado.depositar 0%nat zero mundo_padrao
    = (Retorna tt, com_saida mundo_padrao Legado.erro_valor_invalido) /\
  forall e w, Legado.depositar 0%nat zero mundo_padrao <> (Levanta e, w).
Proof.
  split; [reflexivity|]. split; [reflexivity|].
  intros e w. vm_compute. discriminate.
Qed.

(** C6, amended.  The violations are the ones the code tests for, in
    binary64: an amount with [valor <= 0], a withdrawal from a checking
    account with [valor] above the rounded sum of balance and limit, a
    withdrawal from a savings account with [valor] above the balance.  In
    the refactored layered version each of them is raised as a typed
    exception that reaches the caller, with the store unchanged:
    [ValorInvalidoError], [LimiteExcedidoError], [SaldoInsuficienteError].
    The legacy monolith raises nothing: on the same violations [depositar]
    and [sacar] print the matching [Notificacao] error and return normally,
    with every account unchanged.  An amount that is NaN fails every one
    of these tests: in both forms the deposit of NaN goes through. *)
Theorem violacoes_nas_duas_formas :
  (forall (h : Heap) (conta : ref) (x : float),
      (x <=? zero)%f64 = true ->
      conta_service.realizar_deposito conta x h
        = (Levanta (ValorInvalidoError x), h))
  /\ (forall (h : Heap) (conta : ref) (x : float),
      (x <=? zero)%f64 = true ->
      conta_service.realizar_saque conta x h
        = (Levanta (ValorInvalidoError x), h))
  /\ (forall (h : Heap) (conta : ref) (L t x : float),
      classe (h conta) = ContaCorrenteT L t ->
      (x <=? zero)%f64 = false -> (saldo (h conta) + L <? x)%f64 = true ->
      conta_service.realizar_saque conta x h
        = (Levanta (LimiteExcedidoError (saldo (h conta) + L) x), h))
  /\ (forall (h : Heap) (conta : ref) (t : float) (d : Z) (x : float),
      classe (h conta) = ContaPoupancaT t d ->
      (x <=? zero)%f64 = false -> (saldo (h conta) <? x)%f64 = true ->
      conta_service.realizar_saque conta x h
        = (Levanta (SaldoInsuficienteError (saldo (h conta)) x), h))
  /\ (forall (w : Legado.Mundo) (self : ref) (x : float),
      (x <=? zero)%f64 = true ->
      Legado.depositar self x w
        = (Retorna tt, com_saida w Legado.erro_valor_invalido))
  /\ (forall (w : Legado.Mundo) (self : ref) (x : float),
      (x <=? zero)%f64 = true ->
      Legado.sacar self x w
        = (Retorna tt, com_saida w Legado.erro_valor_invalido))
  /\ (forall (w : Legado.Mundo) (self : ref) (L t x : float),
      Legado.classe (Legado.objetos w self) = Legado.Conta_CorrenteT L t ->
      (x <=? zero)%f64 = false ->
      (Legado._saldo (Legado.objetos w self) + L <? x)%f64 = true ->
      Legado.sacar self x w
        = (Retorna tt, com_saida w Legado.erro_limite_excedido))
  /\ (forall (w : Legado.Mundo) (self : ref) (t : float) (d : Z) (x : float),
      Legado.classe (Legado.objetos w self) = Legado.Conta_PoupancaT t d ->
      (x <=? zero)%f64 = false ->
      (Legado._saldo (Legado.objetos w self) <? x)%f64 = true ->
      Legado.sacar self x w
        = (Retorna tt, com_saida w Legado.erro_saldo_insuficiente))
  /\ (forall (h : Heap) (conta : ref),
      (nan <=? zero)%f64 = false /\
      fst (conta_service.realizar_deposito conta nan h) = Retorna tt)
  /\ (forall (w : Legado.Mundo) (self : ref),
      fst (Legado.depositar self nan w) = Retorna tt /\
      Legado.saida (snd (Legado.depositar self nan w))
        = (Legado.saida w ++ [Legado.deposito nan])%list).
Proof.
  repeat split.
  - intros h conta x Hx. rewrite realizar_deposito_casos. now rewrite Hx.
  - intros. now apply realizar_saque_valor_invalido.
  - intros h conta L t x Hc Hx Hl.
    rewrite (realizar_saque_corrente_casos h conta L t x Hc).
    now rewrite Hx, Hl.
  - intros h conta t d x Hc Hx Hl.
    rewrite (realizar_saque_poupanca_casos h conta t d x Hc).
    now rewrite Hx, Hl.
  - intros. now apply Legado_depositar_valor_invalido.
  - intros. now apply Legado_sacar_valor_invalido.
  - intros w self L t x Hc Hx Hl.
    exact (Legado_sacar_limite_excedido w self L t x Hc Hx Hl).
  - intros w self t d x Hc Hx Hl.
    exact (Legado_sacar_saldo_insuficiente w self t d x Hc Hx Hl).
Qed.

Lemma violacoes_nas_duas_formas_witness :
  ((inteiro 5000 <=? zero)%f64 = false /\
   (saldo (heap_padrao 0%nat) + inteiro 500 <? inteiro 5000)%f64 = true) /\
  conta_service.realizar_saque 0%nat (inteiro 5000) heap_padrao
    = (Levanta (LimiteExcedidoError (saldo (heap_padrao 0%nat) + inteiro 500)
                  (inteiro 5000)),
       heap_padrao) /\
  Legado.sacar 0%nat (inteiro 5000) mundo_padrao
    = (Retorna tt, com_saida mundo_padrao Legado.erro_limite_excedido).
Proof.
  split; [split; reflexivity|]. split.
  - exact (proj1 (proj2 (proj2 violacoes_nas_duas_formas))
             heap_padrao 0%nat (inteiro 500) (inteiro 10) (inteiro 5000)
             eq_refl eq_refl eq_refl).
  - exact (proj1 (proj2 (proj2 (proj2 (proj2 (proj2
             (proj2 violacoes_nas_duas_formas))))))
             mundo_padrao 0%nat (inteiro 1000) (inteiro 10) (inteiro 5000)
             eq_refl eq_refl eq_refl).
Defined.

(** ** The person-ID validator *)

Lemma igual_a_repeticao (l : str) (c : N) :
  str_eqb l (validators.vezes c (List.length l)) = forallb (N.eqb c) l.
Proof.
  unfold validators.vezes.
  induction l as [|a l IH]; simpl; [reflexivity|].
  now rewrite IH, (N.eqb_sym a c).
Qed.

Lemma verificacao_em_cadeia (z9 z10 d1 d2 : Z) :
  (if negb (z9 =? d1)%Z then false else (z10 =? d2)%Z)
    = ((d1 =? z9)%Z && (d2 =? z10)%Z).
Proof.
  rewrite (Z.eqb_sym d1 z9), (Z.eqb_sym d2 z10).
  destruct (z9 =? d1)%Z; reflexivity.
Qed.

Tactic Notation "lista_de" integer(n) ident(l) hyp(H) :=
  do n (destruct l as [|? l]; [discriminate H|]);
  destruct l; [clear H|discriminate H].

Ltac expor_somas :=
  cbv [validators.sum_range seq map fold_left validators.item
       validators.soma_ponderada validators.peso
       validators.pesos_10_a_2 validators.pesos_11_a_2
       validators.pesos_cnpj_1 validators.pesos_cnpj_2
       Z.of_nat Pos.of_succ_nat Pos.succ nth].

Ltac mesmas_somas :=
  f_equal; f_equal; expor_somas;
  try reflexivity;
  match goal with
  | |- (if (?a mod 11 <? 2)%Z then _ else _)
       = (if (?b mod 11 <? 2)%Z then _ else _) =>
      replace a with b by lia; reflexivity
  end.

(** [validar_cpf] is the conjunction of its four tests. *)
Lemma validar_cpf_refina cpf :
  validators.validar_cpf cpf = validators.validar_cpf_conjuncao cpf.
Proof.
  unfold validators.validar_cpf, validators.validar_cpf_conjuncao,
    validators.digitos.
  set (l := validators.re_sub_nao_digitos cpf). clearbody l.
  destruct (Nat.eqb_spec (List.length l) 11) as [Hlen|Hlen];
    [|reflexivity].
  change (negb true) with false. cbv iota. rewrite andb_true_l.
  lista_de 11 l Hlen.
  match goal with |- context [str_eqb ?l0 _] =>
    change (validators.item l0 0) with (hd 0%N l0);
    change 11%nat with (List.length l0) at 1;
    rewrite (igual_a_repeticao l0 (hd 0%N l0));
    change (validators.mesmo_caractere l0)
      with (forallb (N.eqb (hd 0%N l0)) l0)
  end.
  match goal with |- context [forallb ?f ?ds] => destruct (forallb f ds) end;
    [reflexivity|].
  change (negb false) with true. rewrite andb_true_l.
  cbv zeta. cbv [validators.digito_verificador].
  rewrite verificacao_em_cadeia.
  mesmas_somas.
Qed.

(** [validar_cnpj] is the conjunction of its four tests. *)
Lemma validar_cnpj_refina cnpj :
  validators.validar_cnpj cnpj = validators.validar_cnpj_conjuncao cnpj.
Proof.
  unfold validators.validar_cnpj, validators.validar_cnpj_conjuncao,
    validators.digitos.
  set (l := validators.re_sub_nao_digitos cnpj). clearbody l.
  destruct (Nat.eqb_spec (List.length l) 14) as [Hlen|Hlen];
    [|reflexivity].
  change (negb true) with false. cbv iota. rewrite andb_true_l.
  lista_de 14 l Hlen.
  match goal with |- context [str_eqb ?l0 _] =>
    change (validators.item l0 0) with (hd 0%N l0);
    change 14%nat with (List.length l0) at 1;
    rewrite (igual_a_repeticao l0 (hd 0%N l0));
    change (validators.mesmo_caractere l0)
      with (forallb (N.eqb (hd 0%N l0)) l0)
  end.
  match goal with |- context [forallb ?f ?ds] => destruct (forallb f ds) end;
    [reflexivity|].
  change (negb false) with true. rewrite andb_true_l.
  cbv zeta. cbv [validators.digito_verificador].
  rewrite verificacao_em_cadeia.
  mesmas_somas.
Qed.

(** C7.  Eleven identical digits written in two scripts are accepted.  On
    ten ASCII ['1'] followed by U+0661, ARABIC-INDIC DIGIT ONE, [\D] keeps
    all eleven characters and [int] reads each of them as 1, so the eleven
    digits are identical; the comparison with [cpf_limpo[0] * 11] compares
    characters and does not see it; both check digits of 1111111111 are 1;
    [validar_cpf] answers [True].  On the three sample identifiers it
    answers [True], [False] and [False]. *)
Theorem validar_cpf_digitos_de_duas_escritas :
  let cpf := (utf8 "1111111111" ++ [1633%N])%list in
  validators.re_sub_nao_digitos cpf = cpf
  /\ validators.digitos cpf = repeat 1%Z 11
  /\ validators.todos_iguais (validators.digitos cpf) = true
  /\ validators.validar_cpf cpf = true
  /\ validators.validar_cpf (utf8 "123.456.789-09") = true
  /\ validators.validar_cpf (utf8 "111.111.111-11") = false
  /\ validators.validar_cpf (utf8 "123.456.789-00") = false.
Proof. vm_compute. repeat split. Qed.

(** ** Tax and interest are read-only *)

Lemma get_valor_imposto_corrente h conta L t :
  classe (h conta) = ContaCorrenteT L t ->
  get_valor_imposto conta h
    = (Retorna (saldo (h conta) * decimal 7 100)%f64, h).
Proof. intros Hc. unfold get_valor_imposto. now rewrite Hc. Qed.

Lemma get_rendimento_poupanca h conta t d :
  classe (h conta) = ContaPoupancaT t d ->
  get_rendimento conta h
    = (Retorna (saldo (h conta) * (t / inteiro 100))%f64, h).
Proof.
  intros Hc. unfold get_rendimento. rewrite Hc.
  unfold ContaPoupanca.get_rendimento, bind, ler_saldo, ler_taxa_rendimento,
    gets.
  now rewrite Hc.
Qed.

(** A call that returns [v] and leaves the store as it was does so every
    time. *)
Lemma repetir_somente_leitura (S A : Type) (m : M S A) (s : S) (v : A) n :
  m s = (Retorna v, s) ->
  repetir n m s = (Retorna (repeat v n), s).
Proof.
  intros Hm. induction n as [|n IH]; simpl; [reflexivity|].
  unfold bind at 1. rewrite Hm. unfold bind at 1. rewrite IH. reflexivity.
Qed.

(** C8, as stated, fails.  On a balance of 100.0 [get_valor_imposto]
    returns 7.000000000000001: not 7, which 100 times 0.07 is exactly and
    which is a float, and not the exact product of 100 with the float that
    the literal [0.07] denotes either. *)
Lemma imposto_de_cem :
  let h := heap_de (corrente_de (inteiro 100) (inteiro 500) (inteiro 10))
                   conta_poupanca_padrao in
  let r := get_valor_imposto 0%nat h in
  r = (Retorna (S754_finite false 7881299347898369 (-50)), h)
  /\ S754_finite false 7881299347898369 (-50) <> inteiro 7
  /\ (exato (inteiro 100) * (7 # 100) == exato (inteiro 7))%Q
  /\ (exato (inteiro 100) * (7 # 100)
      < exato (S754_finite false 7881299347898369 (-50)))%Q
  /\ (exato (inteiro 100) * exato (decimal 7 100)
      < exato (S754_finite false 7881299347898369 (-50)))%Q.
Proof. vm_compute. repeat split. discriminate. Qed.

(** C8, amended.  On a checking account [get_valor_imposto] returns the
    binary64 product of the balance and the float that the literal [0.07]
    denotes, rounded; on a savings account [get_rendimento] returns the
    rounded product of the balance and the rounded quotient of the rate by
    100.  Both only read: any number of calls in a row return that same
    value every time and leave the store, hence the balance and the log,
    unchanged.  On the accounts of the fixtures the two values are 70.0
    and 25.0. *)
Theorem imposto_e_rendimento_somente_leitura :
  (forall (h : Heap) (conta : ref) (L t : float) (n : nat),
      classe (h conta) = ContaCorrenteT L t ->
      get_valor_imposto conta h
        = (Retorna (saldo (h conta) * decimal 7 100)%f64, h)
      /\ repetir n (get_valor_imposto conta) h
        = (Retorna (repeat (saldo (h conta) * decimal 7 100)%f64 n), h))
  /\ (forall (h : Heap) (conta : ref) (t : float) (d : Z) (n : nat),
      classe (h conta) = ContaPoupancaT t d ->
      get_rendimento conta h
        = (Retorna (saldo (h conta) * (t / inteiro 100))%f64, h)
      /\ repetir n (get_rendimento conta) h
        = (Retorna (repeat (saldo (h conta) * (t / inteiro 100))%f64 n), h))
  /\ decimal 7 100 = S754_finite false 5044031582654956 (-56)
  /\ get_valor_imposto 0%nat heap_padrao = (Retorna (inteiro 70), heap_padrao)
  /\ get_rendimento 1%nat heap_padrao = (Retorna (inteiro 25), heap_padrao).
Proof.
  split; [|split; [|split; [|split]]].
  - intros h conta L t n Hc.
    pose proof (get_valor_imposto_corrente h conta L t Hc) as Hm.
    split; [exact Hm|]. now apply repetir_somente_leitura.
  - intros h conta t d n Hc.
    pose proof (get_rendimento_poupanca h conta t d Hc) as Hm.
    split; [exact Hm|]. now apply repetir_somente_leitura.
  - vm_compute. reflexivity.
  - rewrite (get_valor_imposto_corrente heap_padrao 0%nat _ _ eq_refl).
    vm_compute. reflexivity.
  - rewrite (get_rendimento_poupanca heap_padrao 1%nat _ _ eq_refl).
    vm_compute. reflexivity.
Qed.

Lemma imposto_e_rendimento_somente_leitura_witness :
  classe (heap_padrao 0%nat) = ContaCorrenteT (inteiro 500) (inteiro 10) /\
  classe (heap_padrao 1%nat) = ContaPoupancaT (decimal 1 2) 15 /\
  repetir 3 (get_valor_imposto 0%nat) heap_padrao
    = (Retorna (repeat (saldo (heap_padrao 0%nat) * decimal 7 100)%f64 3),
       heap_padrao) /\
  repetir 2 (get_rendimento 1%nat) heap_padrao
    = (Retorna (repeat (saldo (heap_padrao 1%nat)
                        * (decimal 1 2 / inteiro 100))%f64 2),
       heap_padrao).
Proof.
  split; [reflexivity|]. split; [reflexivity|]. split.
  - exact (proj2 (proj1 imposto_e_rendimento_somente_leitura
                    heap_padrao 0%nat (inteiro 500) (inteiro 10) 3%nat
                    eq_refl)).
  - exact (proj2 (proj1 (proj2 imposto_e_rendimento_somente_leitura)
                    heap_padrao 1%nat (decimal 1 2) 15%Z 2%nat eq_refl)).
Defined.

(** ** The order of the checks when a customer is constructed *)





(** ** Interest on a savings account *)

Lemma aplicar_rendimento_poupanca_casos h conta t d :
  classe (h conta) = ContaPoupancaT t d ->
  conta_service.aplicar_rendimento conta h =
    let rendimento := (saldo (h conta) * (t / inteiro 100))%f64 in
    let h1 :=
      atualiza h conta
        (com_saldo (h conta) (saldo (h conta) + rendimento)) in
    if (rendimento <=? zero)%f64
    then (Levanta (ValidationError ["valor"]), h1)
    else
      (Retorna tt,
       atualiza h1 conta
         (com_transacoes (h1 conta)
            (transacoes (h1 conta)
               ++ [{| tipo := utf8 "Rendimento"; valor := rendimento;
                      conta := conta |}]))).
Proof.
  intros Hc.
  unfold conta_service.aplicar_rendimento, bind at 1,
    hasattr_get_rendimento, gets.
  rewrite Hc. unfold bind at 1.
  rewrite (get_rendimento_poupanca h conta t d Hc).
  unfold bind, ler_saldo, escrever_saldo, gets, modify. cbv zeta.
  destruct (saldo (h conta) * (t / inteiro 100) <=? zero)%f64 eqn:Hr.
  - unfold Transacao_init, construir, Transacao_validar, bind, campo,
      validar_valor_positivo.
    rewrite Hr. reflexivity.
  - rewrite Transacao_init_rotulo by (reflexivity || assumption).
    reflexivity.
Qed.

(** The product of a zero and a finite number is a zero, which is [<= 0];
    and a zero plus a zero is a zero. *)
Lemma produto_de_zero (b q : float) :
  e_zero b = true -> finito q = true ->
  e_zero (b * q)%f64 = true /\ (b * q <=? zero)%f64 = true /\
  e_zero (b + b * q)%f64 = true.
Proof.
  destruct b as [sb|sb| |sb mb eb]; try discriminate.
  destruct q as [sq|sq| |sq mq eq]; try discriminate; intros _ _;
    destruct sb, sq; repeat split.
Qed.

(** C10, as stated, fails: a savings account with the positive balance
    5e-324 and the rate 0.5 has the computed interest 0.0, which the
    validator of [Transacao] refuses: [aplicar_rendimento] raises and
    appends nothing. *)
Lemma rendimento_de_saldo_positivo_levanta :
  let h := heap_de conta_corrente_padrao
                   (poupanca_de menor_positivo (decimal 1 2)) in
  let r := conta_service.aplicar_rendimento 1%nat h in
  (zero <? saldo (h 1%nat))%f64 = true
  /\ (zero <? decimal 1 2)%f64 = true
  /\ (saldo (h 1%nat) * (decimal 1 2 / inteiro 100))%f64 = zero
  /\ fst r = Levanta (ValidationError ["valor"])
  /\ transacoes (snd r 1%nat) = [].
Proof. vm_compute. repeat split. Qed.

(** C10, amended.  On a savings account with balance [b], let [j] be the
    interest the code computes, the rounded product of [b] and the rounded
    quotient of the rate by 100.  If [j <= 0] is false, [aplicar_rendimento]
    returns, the balance read back is the rounded sum [b + j] and the log
    read back is the old log with exactly one more record, ["Rendimento"]
    of amount [j].  If [j <= 0], it raises pydantic's [ValidationError] on
    the field [valor] and appends nothing; the balance was written before
    that and is [b + j].  That is the case of a balance equal to zero,
    whenever the quotient of the rate by 100 is finite: the call raises,
    the log is as it was and the balance is still zero. *)
Theorem aplicar_rendimento_regra :
  (forall (h : Heap) (conta : ref) (t : float) (d : Z),
      classe (h conta) = ContaPoupancaT t d ->
      let rendimento := (saldo (h conta) * (t / inteiro 100))%f64 in
      (rendimento <=? zero)%f64 = false ->
      exists h',
        conta_service.aplicar_rendimento conta h = (Retorna tt, h') /\
        saldo (h' conta) = (saldo (h conta) + rendimento)%f64 /\
        transacoes (h' conta) =
          (transacoes (h conta)
             ++ [{| tipo := utf8 "Rendimento"; valor := rendimento;
                    conta := conta |}])%list /\
        mesma_identidade (h conta) (h' conta) /\
        (forall r, r <> conta -> h' r = h r))
  /\ (forall (h : Heap) (conta : ref) (t : float) (d : Z),
      classe (h conta) = ContaPoupancaT t d ->
      let rendimento := (saldo (h conta) * (t / inteiro 100))%f64 in
      (rendimento <=? zero)%f64 = true ->
      let r := conta_service.aplicar_rendimento conta h in
      fst r = Levanta (ValidationError ["valor"]) /\
      transacoes (snd r conta) = transacoes (h conta) /\
      saldo (snd r conta) = (saldo (h conta) + rendimento)%f64 /\
      (forall r', r' <> conta -> snd r r' = h r'))
  /\ (forall (h : Heap) (conta : ref) (t : float) (d : Z),
      classe (h conta) = ContaPoupancaT t d ->
      e_zero (saldo (h conta)) = true ->
      finito (t / inteiro 100)%f64 = true ->
      let r := conta_service.aplicar_rendimento conta h in
      fst r = Levanta (ValidationError ["valor"]) /\
      transacoes (snd r conta) = transacoes (h conta) /\
      e_zero (saldo (snd r conta)) = true /\
      (forall r', r' <> conta -> snd r r' = h r')).
Proof.
  split; [|split].
  - intros h conta t d Hc rendimento Hr.
    rewrite (aplicar_rendimento_poupanca_casos h conta t d Hc).
    cbv zeta. fold rendimento. rewrite Hr.
    eexists; split; [reflexivity|].
    repeat split; intros; heap_simpl; reflexivity.
  - intros h conta t d Hc rendimento Hr r. subst r.
    rewrite (aplicar_rendimento_poupanca_casos h conta t d Hc).
    cbv zeta. fold rendimento. rewrite Hr. cbn [fst snd].
    repeat split; intros; heap_simpl; reflexivity.
  - intros h conta t d Hc Hz Hq r. subst r.
    destruct (produto_de_zero _ _ Hz Hq) as (_ & Hle & Hsoma).
    rewrite (aplicar_rendimento_poupanca_casos h conta t d Hc).
    cbv zeta. rewrite Hle. cbn [fst snd].
    repeat split; intros; heap_simpl; (reflexivity || assumption).
Qed.

Lemma aplicar_rendimento_regra_witness :
  (classe (heap_padrao 1%nat) = ContaPoupancaT (decimal 1 2) 15 /\
   (saldo (heap_padrao 1%nat) * (decimal 1 2 / inteiro 100) <=? zero)%f64
     = false) /\
  (exists h',
    conta_service.aplicar_rendimento 1%nat heap_padrao = (Retorna tt, h') /\
    saldo (h' 1%nat) = inteiro 5025) /\
  (e_zero zero = true /\ finito (decimal 1 2 / inteiro 100)%f64 = true) /\
  fst (conta_service.aplicar_rendimento 1%nat
         (heap_de conta_corrente_padrao (poupanca_de zero (decimal 1 2))))
    = Levanta (ValidationError ["valor"]).
Proof.
  split; [split; reflexivity|]. split; [|split; [split; reflexivity|]].
  - destruct (proj1 aplicar_rendimento_regra heap_padrao 1%nat (decimal 1 2)
                15%Z eq_refl eq_refl)
      as (h' & Hr & Hs & _).
    exists h'. split; [exact Hr|]. rewrite Hs. vm_compute. reflexivity.
  - exact (proj1 (proj2 (proj2 aplicar_rendimento_regra)
                    (heap_de conta_corrente_padrao
                       (poupanca_de zero (decimal 1 2)))
                    1%nat (decimal 1 2) 15%Z eq_refl eq_refl eq_refl)).
Defined.

(** * Further properties of the code *)

(** ** The validators and the formatting of their input *)

Lemma re_sub_insere (s1 : str) c (s2 : str) :
  validators.isdecimal c = false ->
  validators.re_sub_nao_digitos (s1 ++ c :: s2)
    = validators.re_sub_nao_digitos (s1 ++ s2).
Proof.
  intros Hc. unfold validators.re_sub_nao_digitos.
  rewrite !filter_app. simpl. now rewrite Hc.
Qed.

Lemma re_sub_idempotente s :
  validators.re_sub_nao_digitos (validators.re_sub_nao_digitos s)
    = validators.re_sub_nao_digitos s.
Proof.
  unfold validators.re_sub_nao_digitos.
  induction s as [|a s IH]; simpl; [reflexivity|].
  destruct (validators.isdecimal a) eqn:Ha; simpl; [|exact IH].
  now rewrite Ha, IH.
Qed.

(** X1.  The four validators look at the digits only: a character that is not a
    digit, anywhere in the input, changes no answer, and the input with all
    such characters removed gets the same answer. *)
Theorem validadores_ignoram_formatacao :
  (forall (s1 : str) (c : N) (s2 : str),
      validators.isdecimal c = false ->
      validators.validar_cpf (s1 ++ c :: s2)
        = validators.validar_cpf (s1 ++ s2) /\
      validators.validar_cnpj (s1 ++ c :: s2)
        = validators.validar_cnpj (s1 ++ s2) /\
      validators.validar_cep (s1 ++ c :: s2)
        = validators.validar_cep (s1 ++ s2) /\
      validators.validar_telefone (s1 ++ c :: s2)
        = validators.validar_telefone (s1 ++ s2))
  /\ (forall s : str,
      validators.validar_cpf (validators.re_sub_nao_digitos s)
        = validators.validar_cpf s /\
      validators.validar_cnpj (validators.re_sub_nao_digitos s)
        = validators.validar_cnpj s /\
      validators.validar_cep (validators.re_sub_nao_digitos s)
        = validators.validar_cep s /\
      validators.validar_telefone (validators.re_sub_nao_digitos s)
        = validators.validar_telefone s).
Proof.
  split.
  - intros s1 c s2 Hc.
    unfold validators.validar_cpf, validators.validar_cnpj,
      validators.validar_cep, validators.validar_telefone.
    rewrite (re_sub_insere s1 c s2 Hc). repeat split; reflexivity.
  - intros s.
    unfold validators.validar_cpf, validators.validar_cnpj,
      validators.validar_cep, validators.validar_telefone.
    rewrite re_sub_idempotente. repeat split; reflexivity.
Qed.

Lemma validadores_ignoram_formatacao_witness :
  validators.isdecimal 45%N = false /\
  validators.validar_cep (utf8 "79002" ++ 45%N :: utf8 "000")
    = validators.validar_cep (utf8 "79002" ++ utf8 "000").
Proof.
  split; [reflexivity|].
  exact (proj1 (proj2 (proj2
           (proj1 validadores_ignoram_formatacao (utf8 "79002") 45%N
              (utf8 "000") eq_refl)))).
Defined.

(** ** The company identifier *)

(** X2.  [validar_cnpj] answers [True] exactly when [\D] leaves fourteen
    characters, they are not fourteen copies of one character, and the two
    check digits of their values under the weight vectors of the code are
    the values of the thirteenth and the fourteenth; so an input with
    another number of digits is refused.  The test for identical digits
    compares characters, not values: thirteen ASCII zeros followed by the
    ARABIC-INDIC zero, fourteen digits all 0, are accepted. *)
Theorem validar_cnpj_conforme :
  (forall cnpj,
      validators.validar_cnpj cnpj = true <->
      let cs := validators.re_sub_nao_digitos cnpj in
      let ds := validators.digitos cnpj in
      List.length cs = 14%nat /\
      validators.mesmo_caractere cs = false /\
      validators.digito_verificador ds validators.pesos_cnpj_1
        = nth 12 ds 0%Z /\
      validators.digito_verificador ds validators.pesos_cnpj_2
        = nth 13 ds 0%Z)
  /\ (forall cnpj,
      List.length (validators.digitos cnpj) <> 14%nat ->
      validators.validar_cnpj cnpj = false)
  /\ (let cnpj := (utf8 "0000000000000" ++ [1632%N])%list in
      validators.digitos cnpj = repeat 0%Z 14 /\
      validators.validar_cnpj cnpj = true).
Proof.
  split; [|split].
  - intros cnpj. rewrite validar_cnpj_refina.
    unfold validators.validar_cnpj_conjuncao. cbv zeta.
    rewrite !andb_true_iff, negb_true_iff, Nat.eqb_eq, !Z.eqb_eq.
    tauto.
  - intros cnpj Hlen. rewrite validar_cnpj_refina.
    unfold validators.validar_cnpj_conjuncao.
    unfold validators.digitos in Hlen. rewrite length_map in Hlen.
    apply Nat.eqb_neq in Hlen. now rewrite Hlen.
  - vm_compute. split; reflexivity.
Qed.

Lemma validar_cnpj_conforme_witness :
  List.length (validators.digitos (utf8 "11.222.333/0001")) <> 14%nat /\
  validators.validar_cnpj (utf8 "11.222.333/0001") = false.
Proof.
  assert (H : List.length (validators.digitos (utf8 "11.222.333/0001"))
              <> 14%nat)
    by (vm_compute; discriminate).
  split; [exact H|].
  exact (proj1 (proj2 validar_cnpj_conforme) (utf8 "11.222.333/0001") H).
Defined.

(** ** Check digits are a function of the base digits *)

(** X3.  Two inputs that [validar_cpf] accepts and that have the same first nine
    digits have the same eleven digits; two inputs that [validar_cnpj]
    accepts and that have the same first twelve digits have the same
    fourteen.  So changing only check digits of a valid identifier always
    gives an invalid one. *)
Theorem digitos_verificadores_unicos :
  (forall a b : str,
      validators.validar_cpf a = true ->
      validators.validar_cpf b = true ->
      firstn 9 (validators.digitos a) = firstn 9 (validators.digitos b) ->
      validators.digitos a = validators.digitos b)
  /\ (forall a b : str,
      validators.validar_cnpj a = true ->
      validators.validar_cnpj b = true ->
      firstn 12 (validators.digitos a) = firstn 12 (validators.digitos b) ->
      validators.digitos a = validators.digitos b).
Proof.
  split.
  - intros a b Ha Hb.
    rewrite validar_cpf_refina in Ha, Hb.
    unfold validators.validar_cpf_conjuncao in Ha, Hb. cbv zeta in Ha, Hb.
    rewrite !andb_true_iff, Nat.eqb_eq, !Z.eqb_eq in Ha, Hb.
    destruct Ha as [[[La _] A1] A2]. destruct Hb as [[[Lb _] B1] B2].
    rewrite <- (length_map validators.int) in La, Lb.
    fold (validators.digitos a) in La. fold (validators.digitos b) in Lb.
    set (la := validators.digitos a) in *.
    set (lb := validators.digitos b) in *.
    clearbody la lb.
    lista_de 11 la La. lista_de 11 lb Lb.
    cbv [firstn]. intros [= -> -> -> -> -> -> -> -> ->].
    cbv [validators.digito_verificador validators.soma_ponderada
         validators.pesos_10_a_2 validators.pesos_11_a_2 nth] in A1, B1.
    rewrite A1 in B1. subst.
    cbv [validators.digito_verificador validators.soma_ponderada
         validators.pesos_10_a_2 validators.pesos_11_a_2 nth] in A2, B2.
    rewrite A2 in B2. subst. reflexivity.
  - intros a b Ha Hb.
    rewrite validar_cnpj_refina in Ha, Hb.
    unfold validators.validar_cnpj_conjuncao in Ha, Hb. cbv zeta in Ha, Hb.
    rewrite !andb_true_iff, Nat.eqb_eq, !Z.eqb_eq in Ha, Hb.
    destruct Ha as [[[La _] A1] A2]. destruct Hb as [[[Lb _] B1] B2].
    rewrite <- (length_map validators.int) in La, Lb.
    fold (validators.digitos a) in La. fold (validators.digitos b) in Lb.
    set (la := validators.digitos a) in *.
    set (lb := validators.digitos b) in *.
    clearbody la lb.
    lista_de 14 la La. lista_de 14 lb Lb.
    cbv [firstn]. intros [= -> -> -> -> -> -> -> -> -> -> -> ->].
    cbv [validators.digito_verificador validators.soma_ponderada
         validators.pesos_cnpj_1 validators.pesos_cnpj_2 nth] in A1, B1.
    rewrite A1 in B1. subst.
    cbv [validators.digito_verificador validators.soma_ponderada
         validators.pesos_cnpj_1 validators.pesos_cnpj_2 nth] in A2, B2.
    rewrite A2 in B2. subst. reflexivity.
Qed.

Lemma digitos_verificadores_unicos_witness :
  (validators.validar_cpf (utf8 "123.456.789-09") = true /\
   validators.validar_cpf (utf8 "12345678909") = true /\
   firstn 9 (validators.digitos (utf8 "123.456.789-09"))
     = firstn 9 (validators.digitos (utf8 "12345678909"))) /\
  validators.digitos (utf8 "123.456.789-09")
    = validators.digitos (utf8 "12345678909").
Proof.
  split; [repeat split; vm_compute; reflexivity|].
  exact (proj1 digitos_verificadores_unicos
           (utf8 "123.456.789-09") (utf8 "12345678909")
           eq_refl eq_refl eq_refl).
Defined.

(** ** What the constructors store, accept and refuse *)

(** X4.  A number, label or name that a validator accepted and stored is
    accepted again as it is: the stripping of the validators is done once
    and for all. *)
Theorem valor_armazenado_e_estavel :
  (forall v n : str,
      validar_numero_nao_vazio v = Aceita n ->
      validar_numero_nao_vazio n = Aceita n)
  /\ (forall v n : str,
      validar_tipo_nao_vazio v = Aceita n ->
      validar_tipo_nao_vazio n = Aceita n)
  /\ (forall v n : str,
      Pessoa.validar_nome_nao_vazio v = Aceita n ->
      Pessoa.validar_nome_nao_vazio n = Aceita n).
Proof.
  repeat split; intros v n;
    unfold validar_numero_nao_vazio, validar_tipo_nao_vazio,
      Pessoa.validar_nome_nao_vazio;
    destruct (vazio (strip v)) eqn:Hv; try discriminate;
    intros [= <-]; now rewrite strip_idempotente, Hv.
Qed.

Lemma valor_armazenado_e_estavel_witness :
  validar_numero_nao_vazio (utf8 "  12345-6 ") = Aceita (utf8 "12345-6") /\
  validar_numero_nao_vazio (utf8 "12345-6") = Aceita (utf8 "12345-6").
Proof.
  split; [reflexivity|].
  exact (proj1 valor_armazenado_e_estavel (utf8 "  12345-6 ")
           (utf8 "12345-6") eq_refl).
Defined.

(** X5.  The account constructors never raise a domain exception.  With no
    refused field they return the account: the number stripped, the log
    empty, the other values as given; otherwise they raise one
    [ValidationError] that names every refused field, in field order. *)
Theorem construtores_de_conta :
  (forall (n : str) (cli : ref) (s : float) (senha : str) (l t : float),
      fst (ContaCorrente.init n cli s senha l t registro_vazio) =
        match recusados_corrente n s l with
        | [] => Retorna {| numero := strip n; cliente := cli; saldo := s;
                           senha_hash := senha; transacoes := [];
                           classe := ContaCorrenteT l t |}
        | campos => Levanta (ValidationError campos)
        end)
  /\ (forall (n : str) (cli : ref) (s : float) (senha : str) (t : float)
             (d : Z),
      fst (ContaPoupanca.init n cli s senha t d registro_vazio) =
        match recusados_poupanca n s t d with
        | [] => Retorna {| numero := strip n; cliente := cli; saldo := s;
                           senha_hash := senha; transacoes := [];
                           classe := ContaPoupancaT t d |}
        | campos => Levanta (ValidationError campos)
        end).
Proof.
  split.
  - intros n cli s senha l t.
    unfold ContaCorrente.init, recusados_corrente, bind, campo,
      validar_numero_nao_vazio, validar_saldo_nao_negativo,
      ContaCorrente.validar_limite_nao_negativo.
    destruct (vazio (strip n)); destruct (s <? zero)%f64;
      destruct (l <? zero)%f64; reflexivity.
  - intros n cli s senha t d.
    unfold ContaPoupanca.init, recusados_poupanca, bind, campo,
      validar_numero_nao_vazio, validar_saldo_nao_negativo,
      ContaPoupanca.validar_taxa_positiva, ContaPoupanca.validar_dia_mes.
    destruct (vazio (strip n)); destruct (s <? zero)%f64;
      destruct (t <=? zero)%f64;
      destruct (negb ((1 <=? d)%Z && (d <=? 31)%Z)); reflexivity.
Qed.

(** X6.  The customer constructor, in full.  An identifier that fails the
    checksum wins over everything; then an age below 18; only then are a
    blank name and a malformed licence number reported, together, although
    the name is the first field visited. *)
Theorem Cliente_init_casos :
  forall (hoje : date) (nome cpf : str) (nascimento : date)
         (cnh : str),
    fst (ClienteM.init hoje nome cpf nascimento cnh registro_vazio) =
      if negb (validators.validar_cpf cpf)
      then Levanta (CPFInvalidoError cpf)
      else if (Pessoa.idade hoje nascimento <? 18)%Z
      then Levanta (IdadeInvalidaError (Pessoa.idade hoje nascimento))
      else
        match vazio (strip nome), ClienteM.validar_cnh_formato cnh with
        | false, Aceita c =>
            Retorna {| nome := strip nome; cpf := cpf;
                       data_nascimento := nascimento; cnh := c;
                       contas := [] |}
        | true, Aceita _ => Levanta (ValidationError ["nome"])
        | false, _ => Levanta (ValidationError ["cnh"])
        | true, _ => Levanta (ValidationError ["nome"; "cnh"])
        end.
Proof.
  intros hoje nome cpf nascimento cnh.
  unfold ClienteM.init, bind, campo, Pessoa.validar_nome_nao_vazio,
    Pessoa.validar_cpf_format, Pessoa.validar_idade_minima.
  destruct (vazio (strip nome));
    destruct (validators.validar_cpf cpf); simpl; try reflexivity;
    destruct (Pessoa.idade hoje nascimento <? 18)%Z; simpl; try reflexivity;
    unfold ClienteM.validar_cnh_formato;
    destruct (negb _ || _); reflexivity.
Qed.

(** ** The fee service *)

(** No float is below itself. *)
Lemma flt_irrefl (x : float) : (x <? x)%f64 = false.
Proof.
  destruct x as [s|s| |s m e]; try (destruct s; reflexivity);
    try reflexivity.
  unfold flt, SFltb, SFcompare.
  change (Pcompare m m Eq) with (Pos.compare m m).
  rewrite Z.compare_refl, Pos.compare_refl. destruct s; reflexivity.
Qed.

Lemma aplicar_taxas_poupanca_casos h conta t d :
  classe (h conta) = ContaPoupancaT t d ->
  conta_service.aplicar_taxas conta h = (Retorna tt, h).
Proof.
  intros Hc.
  unfold conta_service.aplicar_taxas, aplicar_taxas, bind, ler_saldo, gets.
  rewrite Hc. unfold ContaPoupanca.aplicar_taxas, ret.
  now rewrite flt_irrefl.
Qed.

(** X7.  [conta_service.aplicar_taxas] on a checking account sets the balance
    to the rounded difference of the balance and the fee.  What it logs is
    not the fee but the drop it observes: when the new balance is not below
    the old one it logs nothing; when it is, and the drop (old balance
    minus new balance, rounded) passes the validator of [Transacao], it
    logs one ["Taxa manutenção"] record of that drop.  On balance 1000.1
    the fee 0.1 is logged as 0.10000000000002274, and on balance 1000.0 the
    positive fee 1e-20 moves nothing and leaves no record.  On a savings
    account the call returns and nothing changes. *)
Theorem aplicar_taxas_regra :
  (forall (h : Heap) (c : ref) (L t : float),
      classe (h c) = ContaCorrenteT L t ->
      let depois := (saldo (h c) - t)%f64 in
      (depois <? saldo (h c))%f64 = false ->
      exists h',
        conta_service.aplicar_taxas c h = (Retorna tt, h') /\
        saldo (h' c) = depois /\
        transacoes (h' c) = transacoes (h c) /\
        mesma_identidade (h c) (h' c) /\
        (forall r, r <> c -> h' r = h r))
  /\ (forall (h : Heap) (c : ref) (L t : float),
      classe (h c) = ContaCorrenteT L t ->
      let depois := (saldo (h c) - t)%f64 in
      let taxa_cobrada := (saldo (h c) - depois)%f64 in
      (depois <? saldo (h c))%f64 = true ->
      (taxa_cobrada <=? zero)%f64 = false ->
      exists h',
        conta_service.aplicar_taxas c h = (Retorna tt, h') /\
        saldo (h' c) = depois /\
        transacoes (h' c) =
          (transacoes (h c)
             ++ [{| tipo := utf8 "Taxa manutenção"; valor := taxa_cobrada;
                    conta := c |}])%list /\
        mesma_identidade (h c) (h' c) /\
        (forall r, r <> c -> h' r = h r))
  /\ (forall (h : Heap) (c : ref) (t : float) (d : Z),
      classe (h c) = ContaPoupancaT t d ->
      conta_service.aplicar_taxas c h = (Retorna tt, h))
  /\ (let h := heap_de (corrente_de (decimal 10001 10) (inteiro 500)
                          (decimal 1 10))
                       conta_poupanca_padrao in
      let r := conta_service.aplicar_taxas 0%nat h in
      fst r = Retorna tt /\
      map valor (transacoes (snd r 0%nat))
        = [S754_finite false 7205759403794432 (-56)] /\
      S754_finite false 7205759403794432 (-56) <> decimal 1 10)
  /\ (let h := heap_de (corrente_de (inteiro 1000) (inteiro 500)
                          (decimal 1 (10 ^ 20)))
                       conta_poupanca_padrao in
      let r := conta_service.aplicar_taxas 0%nat h in
      (zero <? decimal 1 (10 ^ 20))%f64 = true /\
      fst r = Retorna tt /\
      saldo (snd r 0%nat) = inteiro 1000 /\
      transacoes (snd r 0%nat) = []).
Proof.
  split; [|split; [|split; [|split]]].
  - intros h c L t Hc depois Hlt.
    rewrite (aplicar_taxas_corrente_casos h c L t Hc). cbv zeta.
    fold depois. rewrite Hlt.
    eexists. split; [reflexivity|].
    repeat split; intros; heap_simpl; reflexivity.
  - intros h c L t Hc depois taxa_cobrada Hlt Hv.
    rewrite (aplicar_taxas_corrente_casos h c L t Hc). cbv zeta.
    fold depois. rewrite Hlt. fold taxa_cobrada. rewrite Hv.
    eexists. split; [reflexivity|].
    repeat split; intros; heap_simpl; reflexivity.
  - intros h c t d Hc. exact (aplicar_taxas_poupanca_casos h c t d Hc).
  - vm_compute. repeat split. discriminate.
  - vm_compute. repeat split.
Qed.

Lemma aplicar_taxas_regra_witness :
  (classe (heap_padrao 0%nat) = ContaCorrenteT (inteiro 500) (inteiro 10) /\
   (saldo (heap_padrao 0%nat) - inteiro 10 <? saldo (heap_padrao 0%nat))%f64
     = true /\
   (saldo (heap_padrao 0%nat) - (saldo (heap_padrao 0%nat) - inteiro 10)
      <=? zero)%f64 = false) /\
  exists h',
    conta_service.aplicar_taxas 0%nat heap_padrao = (Retorna tt, h') /\
    saldo (h' 0%nat) = inteiro 990 /\
    map valor (transacoes (h' 0%nat)) = [inteiro 10].
Proof.
  split; [repeat split|].
  destruct (proj1 (proj2 aplicar_taxas_regra) heap_padrao 0%nat
              (inteiro 500) (inteiro 10) eq_refl eq_refl eq_refl)
    as (h' & Hr & Hs & Ht & _).
  exists h'. split; [exact Hr|]. rewrite Hs, Ht. split; reflexivity.
Defined.

(** ** Tax and interest through the services *)

Lemma calcular_imposto_casos h conta :
  conta_service.calcular_imposto conta h =
    (Retorna (match classe (h conta) with
              | ContaCorrenteT _ _ => saldo (h conta) * decimal 7 100
              | ContaPoupancaT _ _ => zero
              end)%f64, h).
Proof.
  unfold conta_service.calcular_imposto, bind, hasattr_get_valor_imposto,
    gets.
  destruct (classe (h conta)) as [L t|t d] eqn:Hc; [|reflexivity].
  now rewrite (get_valor_imposto_corrente h conta L t Hc).
Qed.

Lemma calcular_rendimento_casos h conta :
  conta_service.calcular_rendimento conta h =
    (Retorna (match classe (h conta) with
              | ContaPoupancaT t _ => saldo (h conta) * (t / inteiro 100)
              | ContaCorrenteT _ _ => zero
              end)%f64, h).
Proof.
  unfold conta_service.calcular_rendimento, bind, hasattr_get_rendimento,
    gets.
  destruct (classe (h conta)) as [L t|t d] eqn:Hc; [reflexivity|].
  now rewrite (get_rendimento_poupanca h conta t d Hc).
Qed.

(** X8.  [calcular_imposto] and [calcular_rendimento] accept any account: they
    never raise and never change the store.  On an account of the class
    that has the capability the answer is what the method of the class
    returns, the rounded product of the balance with the float 0.07 or
    with the rounded rate/100; on an account of the other class it is
    0.0. *)
Theorem calculos_por_capacidade :
  forall (h : Heap) (conta : ref),
    conta_service.calcular_imposto conta h =
      (Retorna (match classe (h conta) with
                | ContaCorrenteT _ _ => saldo (h conta) * decimal 7 100
                | ContaPoupancaT _ _ => zero
                end)%f64, h)
    /\ conta_service.calcular_rendimento conta h =
      (Retorna (match classe (h conta) with
                | ContaPoupancaT t _ => saldo (h conta) * (t / inteiro 100)
                | ContaCorrenteT _ _ => zero
                end)%f64, h).
Proof.
  intros h conta. split.
  - apply calcular_imposto_casos.
  - apply calcular_rendimento_casos.
Qed.

(** ** Interest as a deposit *)

Lemma aplicar_rendimento_corrente h conta L t :
  classe (h conta) = ContaCorrenteT L t ->
  conta_service.aplicar_rendimento conta h = (Retorna tt, h).
Proof.
  intros Hc.
  unfold conta_service.aplicar_rendimento, bind, hasattr_get_rendimento, gets.
  now rewrite Hc.
Qed.

(** X9.  On a checking account [aplicar_rendimento] does nothing.  On a savings
    account of whose computed interest [valor <= 0] is false, asking for
    the interest with [calcular_rendimento] and depositing it with
    [realizar_deposito] returns as [aplicar_rendimento] does and gives the
    same balance, and a log that differs only in the label of the new
    record.  When the computed interest is [<= 0] neither of the two
    returns: one raises [ValidationError], the other
    [ValorInvalidoError]. *)
Theorem rendimento_como_deposito :
  (forall (h : Heap) (conta : ref) (L t : float),
      classe (h conta) = ContaCorrenteT L t ->
      conta_service.aplicar_rendimento conta h = (Retorna tt, h))
  /\ (forall (h : Heap) (conta : ref) (t : float) (d : Z),
      classe (h conta) = ContaPoupancaT t d ->
      (saldo (h conta) * (t / inteiro 100) <=? zero)%f64 = false ->
      exists h1 h2,
        conta_service.aplicar_rendimento conta h = (Retorna tt, h1) /\
        (r <- conta_service.calcular_rendimento conta ;;
         conta_service.realizar_deposito conta r) h = (Retorna tt, h2) /\
        saldo (h1 conta) = saldo (h2 conta) /\
        saldo (h1 conta)
          = (saldo (h conta) + saldo (h conta) * (t / inteiro 100))%f64 /\
        map valor (transacoes (h1 conta)) = map valor (transacoes (h2 conta)) /\
        (forall r, r <> conta -> h1 r = h2 r))
  /\ (forall (h : Heap) (conta : ref) (t : float) (d : Z),
      classe (h conta) = ContaPoupancaT t d ->
      let j := (saldo (h conta) * (t / inteiro 100))%f64 in
      (j <=? zero)%f64 = true ->
      fst (conta_service.aplicar_rendimento conta h)
        = Levanta (ValidationError ["valor"]) /\
      (r <- conta_service.calcular_rendimento conta ;;
       conta_service.realizar_deposito conta r) h
        = (Levanta (ValorInvalidoError j), h)).
Proof.
  split; [|split].
  - intros h conta L t Hc. exact (aplicar_rendimento_corrente h conta L t Hc).
  - intros h conta t d Hc Hpos.
    rewrite (aplicar_rendimento_poupanca_casos h conta t d Hc). cbv zeta.
    unfold bind at 1.
    rewrite calcular_rendimento_casos, Hc, realizar_deposito_casos.
    rewrite Hpos.
    eexists. eexists. split; [reflexivity|]. split; [reflexivity|].
    repeat split; intros; heap_simpl; try reflexivity.
    rewrite !map_app. reflexivity.
  - intros h conta t d Hc j Hj.
    rewrite (aplicar_rendimento_poupanca_casos h conta t d Hc). cbv zeta.
    unfold bind at 1.
    rewrite calcular_rendimento_casos, Hc, realizar_deposito_casos.
    fold j. rewrite Hj. split; reflexivity.
Qed.

Lemma rendimento_como_deposito_witness :
  (classe (heap_padrao 1%nat) = ContaPoupancaT (decimal 1 2) 15 /\
   (saldo (heap_padrao 1%nat) * (decimal 1 2 / inteiro 100) <=? zero)%f64
     = false) /\
  exists h1 h2,
    conta_service.aplicar_rendimento 1%nat heap_padrao = (Retorna tt, h1) /\
    (r <- conta_service.calcular_rendimento 1%nat ;;
     conta_service.realizar_deposito 1%nat r) heap_padrao = (Retorna tt, h2) /\
    saldo (h1 1%nat) = saldo (h2 1%nat).
Proof.
  split; [split; reflexivity|].
  destruct (proj1 (proj2 rendimento_como_deposito) heap_padrao 1%nat
              (decimal 1 2) 15%Z eq_refl eq_refl)
    as (h1 & h2 & H1 & H2 & Hs & _).
  exists h1, h2. auto.
Defined.

(** ** Transfers from an account to itself *)

(** X10.  A transfer from an account to itself is not refused: when the
    withdrawal rule lets the amount through, the call returns and the
    account gets both records, the outgoing one first; no other account
    changes.  The balance is the old one minus the amount, rounded, plus
    the amount, rounded; that need not be the old balance: on 0.9 a
    transfer of 0.2 to itself leaves 0.8999999999999999. *)
Theorem transferir_para_si_mesma :
  (forall (h : Heap) (c : ref) (x : float) (h1 : Heap),
    sacar c x h = (Retorna tt, h1) ->
    exists h',
      conta_service.transferir c c x h = (Retorna tt, h') /\
      saldo (h' c) = (saldo (h c) - x + x)%f64 /\
      transacoes (h' c) =
        (transacoes (h c)
           ++ [{| tipo := strip (utf8 "Transf. para " ++ numero (h c));
                  valor := x; conta := c |};
               {| tipo := strip (utf8 "Transf. de " ++ numero (h c));
                  valor := x; conta := c |}])%list /\
      (forall r, r <> c -> h' r = h r))
  /\ (let h := heap_de (corrente_de (decimal 9 10) (inteiro 500) (inteiro 10))
                       conta_poupanca_padrao in
      let r := conta_service.transferir 0%nat 0%nat (decimal 2 10) h in
      fst r = Retorna tt /\
      saldo (snd r 0%nat) = S754_finite false 8106479329266892 (-53) /\
      (exato (saldo (snd r 0%nat)) < exato (decimal 9 10))%Q).
Proof.
  split.
  - intros h c x h1 Hs.
    rewrite (transferir_retorna h c c x h1 Hs). cbv zeta.
    destruct (sacar_retorna h c x h1 Hs) as [_ ->].
    eexists; split; [reflexivity|].
    split; [|split].
    + heap_simpl. reflexivity.
    + heap_simpl. rewrite <- app_assoc. reflexivity.
    + intros r Hr. heap_simpl. reflexivity.
  - vm_compute. repeat split.
Qed.

Lemma transferir_para_si_mesma_witness :
  sacar 0%nat (inteiro 400) heap_padrao
    = (Retorna tt,
       atualiza heap_padrao 0%nat
         (com_saldo (heap_padrao 0%nat) (inteiro 1000 - inteiro 400)))
  /\ exists h',
      conta_service.transferir 0%nat 0%nat (inteiro 400) heap_padrao
        = (Retorna tt, h') /\
      saldo (h' 0%nat) = inteiro 1000 /\
      List.length (transacoes (h' 0%nat)) = 2%nat.
Proof.
  split; [reflexivity|].
  destruct (proj1 transferir_para_si_mesma heap_padrao 0%nat (inteiro 400)
              _ eq_refl)
    as (h' & Hr & Hs & Ht & _).
  exists h'. split; [exact Hr|]. split.
  - rewrite Hs. vm_compute. reflexivity.
  - now rewrite Ht.
Defined.

(** ** The total balance of a bank *)

Lemma listar_todas_contas_acumulado ags :
  forall acc,
    fold_left (fun todas agencia => (todas ++ AgenciaM.contas agencia)%list)
              ags acc
    = (acc ++ List.concat (map AgenciaM.contas ags))%list.
Proof.
  induction ags as [|ag ags IH]; intros acc; simpl.
  - now rewrite app_nil_r.
  - rewrite IH. now rewrite app_assoc.
Qed.

Lemma saldo_total_acumulado h ags :
  forall total,
    fold_left (fun saldo_total agencia =>
                 fold_left (fun saldo_total conta =>
                              (saldo_total + saldo (h conta))%f64)
                           (AgenciaM.contas agencia) saldo_total)
              ags total
    = fold_left (fun total conta => (total + saldo (h conta))%f64)
                (List.concat (map AgenciaM.contas ags)) total.
Proof.
  induction ags as [|ag ags IH]; intros total; simpl; [reflexivity|].
  now rewrite IH, fold_left_app.
Qed.

(** X11.  [calcular_saldo_total_banco] only reads, and its answer is the
    balances of the accounts that [listar_todas_contas_banco] returns,
    in that order, added one by one to 0.0 with a rounding at each step;
    an account listed in two branches is counted twice.  The total is a
    rounded sum, so a transfer between two accounts of the bank need not
    conserve it: with balances 1000.1 and 5000.0 it is 6000.1, and after
    a transfer of 0.2 from the first to the second it is
    6000.099999999999. *)
Theorem saldo_total_do_banco :
  (forall (banco : BancoM.Banco) (h : Heap),
      banco_service.calcular_saldo_total_banco banco h
        = (Retorna
             (soma_saldos h (banco_service.listar_todas_contas_banco banco)),
           h))
  /\ (forall banco : BancoM.Banco,
      banco_service.listar_todas_contas_banco banco
        = List.concat (map AgenciaM.contas (BancoM.agencias banco)))
  /\ (let h := heap_de (corrente_de (decimal 10001 10) (inteiro 500)
                          (inteiro 10))
                       conta_poupanca_padrao in
      let r := conta_service.transferir 0%nat 1%nat (decimal 2 10) h in
      fst r = Retorna tt /\
      fst (banco_service.calcular_saldo_total_banco banco_padrao h)
        = Retorna (decimal 60001 10) /\
      fst (banco_service.calcular_saldo_total_banco banco_padrao (snd r))
        = Retorna (S754_finite false 6597179717818777 (-40)) /\
      (exato (S754_finite false 6597179717818777 (-40))
       < exato (decimal 60001 10))%Q).
Proof.
  split; [|split].
  - intros banco h.
    unfold banco_service.calcular_saldo_total_banco,
      banco_service.listar_todas_contas_banco, gets, soma_saldos.
    now rewrite saldo_total_acumulado, listar_todas_contas_acumulado.
  - intros banco. unfold banco_service.listar_todas_contas_banco.
    now rewrite listar_todas_contas_acumulado.
  - vm_compute. repeat split.
Qed.

(** ** What no sequence of service calls can do *)

Lemma efeito_refl h : efeito_permitido h h.
Proof.
  intros r. split; [apply mesma_identidade_refl|].
  exists []. split; [now rewrite app_nil_r|constructor].
Qed.

Lemma efeito_trans h1 h2 h3 :
  efeito_permitido h1 h2 -> efeito_permitido h2 h3 -> efeito_permitido h1 h3.
Proof.
  intros H12 H23 r.
  destruct (H12 r) as ((Hn1 & Hk1 & Hp1 & Hc1) & (s1 & Ht1 & Hv1)).
  destruct (H23 r) as ((Hn2 & Hk2 & Hp2 & Hc2) & (s2 & Ht2 & Hv2)).
  split; [repeat split; congruence|].
  exists (s1 ++ s2)%list. split.
  - rewrite Ht2, Ht1, app_assoc. reflexivity.
  - apply Forall_app. now split.
Qed.

(** The log of [r] in the goal is the old one with a visible suffix. *)
Ltac sufixo :=
  eexists; split;
  [ first [ symmetry; apply app_nil_r
          | reflexivity
          | rewrite <- app_assoc; reflexivity ]
  | repeat constructor; cbn [valor]; assumption ].

Ltac um_objeto r c :=
  destruct (Nat.eq_dec r c) as [->|?]; heap_simpl;
  (split; [repeat split|sufixo]).

Lemma chamar_efeito c h : efeito_permitido h (estado_final (chamar c h)).
Proof.
  destruct c as [c x|c x|o d x|c|c]; cbn [chamar].
  - rewrite realizar_deposito_casos.
    destruct (x <=? zero)%f64 eqn:Hx; [apply efeito_refl|].
    intros r. cbn [estado_final snd]. um_objeto r c.
  - destruct (classe (h c)) as [L t|t d] eqn:Hc.
    + rewrite (realizar_saque_corrente_casos h c L t x Hc).
      destruct (x <=? zero)%f64 eqn:Hx; [apply efeito_refl|].
      destruct (_ <? x)%f64 eqn:Hl; [apply efeito_refl|].
      intros r. cbv zeta. cbn [estado_final snd]. um_objeto r c.
    + rewrite (realizar_saque_poupanca_casos h c t d x Hc).
      destruct (x <=? zero)%f64 eqn:Hx; [apply efeito_refl|].
      destruct (_ <? x)%f64 eqn:Hl; [apply efeito_refl|].
      intros r. cbv zeta. cbn [estado_final snd]. um_objeto r c.
  - destruct (sacar o x h) as [[[]|e] h1] eqn:Hs.
    + rewrite (transferir_retorna h o d x h1 Hs). cbv zeta.
      destruct (sacar_retorna h o x h1 Hs) as [Hx ->].
      intros r. cbn [estado_final snd].
      destruct (Nat.eq_dec r d) as [->|Hrd];
        destruct (Nat.eq_dec d o) as [->|Hdo];
        try (destruct (Nat.eq_dec r o) as [->|Hro]);
        heap_simpl;
        (split; [repeat split|sufixo]).
    + unfold conta_service.transferir, bind. rewrite Hs.
      rewrite (sacar_levanta h o x e h1 Hs). apply efeito_refl.
  - destruct (classe (h c)) as [L t|t d] eqn:Hc.
    + rewrite (aplicar_taxas_corrente_casos h c L t Hc). cbv zeta.
      destruct (_ <? saldo (h c))%f64 eqn:Hl;
        [destruct (_ <=? zero)%f64 eqn:Hv|];
        intros r; cbn [estado_final snd]; um_objeto r c.
    + rewrite (aplicar_taxas_poupanca_casos h c t d Hc). apply efeito_refl.
  - destruct (classe (h c)) as [L t|t d] eqn:Hc.
    + rewrite (aplicar_rendimento_corrente h c L t Hc). apply efeito_refl.
    + rewrite (aplicar_rendimento_poupanca_casos h c t d Hc). cbv zeta.
      destruct (_ <=? zero)%f64 eqn:Hr; intros r; cbn [estado_final snd];
        um_objeto r c.
Qed.

Lemma apos_chamadas_efeito cs :
  forall h, efeito_permitido h (apos_chamadas cs h).
Proof.
  induction cs as [|c cs IH]; intros h.
  - apply efeito_refl.
  - change (apos_chamadas (c :: cs) h)
      with (apos_chamadas cs (estado_final (chamar c h))).
    eapply efeito_trans; [apply chamar_efeito|apply IH].
Qed.

(** X12.  Whatever calls of the services are made, on whatever accounts, with
    whatever amounts, returning or raising: the log of every account only
    grows, every record added has an amount that the validator of
    [Transacao] lets through ([valor <= 0] is false of it), and no account
    changes its number, owner, password hash or class with its limit, fee
    or rate.  Such an amount is positive when it is a number, but it need
    not be one: a deposit of NaN is logged. *)
Theorem registros_so_crescem :
  (forall (cs : list Chamada) (h : Heap) (r : ref),
    mesma_identidade (h r) (apos_chamadas cs h r) /\
    exists sufixo,
      transacoes (apos_chamadas cs h r) = (transacoes (h r) ++ sufixo)%list /\
      valores_aceites sufixo)
  /\ (forall x : float,
      (x <=? zero)%f64 = false -> (zero <? x)%f64 = true \/ e_nan x = true)
  /\ map valor (transacoes (apos_chamadas [ChamaDeposito 0%nat nan]
                              heap_padrao 0%nat)) = [nan].
Proof.
  split; [|split].
  - intros cs h r. exact (apos_chamadas_efeito cs h r).
  - intros x Hx. destruct (e_nan x) eqn:Hn; [now right|left].
    now apply (fle_false_iff x zero Hn eq_refl).
  - reflexivity.
Qed.

Lemma registros_so_crescem_witness :
  (inteiro 5 <=? zero)%f64 = false /\
  ((zero <? inteiro 5)%f64 = true \/ e_nan (inteiro 5) = true).
Proof.
  split; [reflexivity|].
  exact (proj1 (proj2 registros_so_crescem) (inteiro 5) eq_refl).
Defined.

(** ** The two forms side by side *)




